(** * Expense-Tracker-App: the authentication slice

    A shallow embedding of
      - the [users] schema           (server/src/models/userModel.js),
      - the auth controller: register, login, forgotPassword, resetPassword
                                     (unnamed/part_001),
      - the role guard authorizationRoles        (unnamed/part_002),
      - the guarded user routes, and the error responder that the
        controller tests mount behind the auth routes (unnamed/part_003).

    A request handler is a function on an explicit [World] (the [users]
    collection, the clock, the ObjectId counter and the entropy bcrypt salts
    are drawn from) that also yields the list of observable calls it made:
    [next(...)], [res.status(..).json(..)], [res.cookie(..)] and the calls
    into bcrypt, jsonwebtoken and the mail service. *)

From Stdlib Require Import String Ascii ZArith List Bool Lia DecimalString.
Import ListNotations.

Local Open Scope string_scope.
Local Open Scope list_scope.
Local Open Scope Z_scope.

(** ** Data model: models/userModel.js *)

(** A document of the [users] collection.  [timestamps: true] adds
    [createdAt] and [updatedAt]; dates are milliseconds since the epoch. *)
Record User := mkUser {
  _id : Z;
  name : string;
  email : string;
  password : string;
  role : string;
  balance : Z;
  resetToken : option string;
  resetTokenExpiration : option Z;
  createdAt : Z;
  updatedAt : Z
}.

Definition User_eq_dec (a b : User) : {a = b} + {a <> b}.
Proof.
  decide equality;
    try apply Z.eq_dec; try apply string_dec;
    decide equality; try apply Z.eq_dec; try apply string_dec.
Defined.

(** Field assignments on a loaded document. *)
Definition set_password (u : User) (h : string) : User :=
  mkUser (_id u) (name u) (email u) h (role u) (balance u)
         (resetToken u) (resetTokenExpiration u) (createdAt u) (updatedAt u).

Definition set_resetToken (u : User) (t : option string) : User :=
  mkUser (_id u) (name u) (email u) (password u) (role u) (balance u)
         t (resetTokenExpiration u) (createdAt u) (updatedAt u).

Definition set_resetTokenExpiration (u : User) (e : option Z) : User :=
  mkUser (_id u) (name u) (email u) (password u) (role u) (balance u)
         (resetToken u) e (createdAt u) (updatedAt u).

Definition set_updatedAt (u : User) (t : Z) : User :=
  mkUser (_id u) (name u) (email u) (password u) (role u) (balance u)
         (resetToken u) (resetTokenExpiration u) (createdAt u) t.

(** [enum: ["user", "admin"]] *)
Definition role_enum : list string := ["user"; "admin"].

Definition in_enum (r : string) : bool :=
  existsb (String.eqb r) role_enum.

(** Schema validation as [save] runs it: the three required strings and the
    role enum.  [Some msg] is the ValidationError's message. *)
Definition validate (u : User) : option string :=
  if String.eqb (name u) "" then
    Some "users validation failed: name: Name is required."
  else if String.eqb (email u) "" then
    Some "users validation failed: email: Email is required."
  else if String.eqb (password u) "" then
    Some "users validation failed: password: Password is required."
  else if negb (in_enum (role u)) then
    Some ("users validation failed: role: `" ++ role u
          ++ "` is not a valid enum value for path `role`.")%string
  else None.

(** ** Requests *)

(** A JS object with string values: [req.body].  Body fields are strings (the
    schema's type); an absent key reads as [undefined], here [None]. *)
Definition Obj := list (string * string).

Fixpoint get (k : string) (o : Obj) : option string :=
  match o with
  | [] => None
  | (k', v) :: o' => if String.eqb k k' then Some v else get k o'
  end.

(** [!v]: [undefined] and the empty string are falsy. *)
Definition truthy (v : option string) : bool :=
  match v with
  | Some s => negb (String.eqb s "")
  | None => false
  end.

(** The string behind a value that passed the truthiness guard. *)
Definition str (v : option string) : string :=
  match v with Some s => s | None => "" end.

(** [req.user], as the token middleware attaches it. *)
Record Claims := mkClaims {
  claim_id : Z;
  claim_role : option string
}.

(** [params_token] is [req.params.token] (bound by the route pattern
    [/reset-password/:token]), [headers_host] is [req.headers.host]. *)
Record Request := mkRequest {
  body : Obj;
  params_token : string;
  headers_host : string;
  user : option Claims
}.

(** ** Observable calls *)

Record CustomError := mkCustomError {
  message : string;
  statusCode : Z
}.

Inductive JwtPayload :=
| IdRole (id : Z) (r : string)      (* { id: existUser._id, role: existUser.role } *)
| EmailClaim (e : string).          (* { email: existUser.email } *)

Inductive Data :=
| NoData
| DataUser (u : User)
| DataToken (t : string).

(** The reset mail: the HTML template of forgotPassword interpolates the
    request's host and the reset token, twice, as the link
    [reset_link host token]; the constant markup around the two links is not
    spelled out. *)
Definition reset_link (host token : string) : string :=
  ("http://" ++ host ++ "/api/auth/reset-password/" ++ token)%string.

Inductive MailText :=
| ResetMail (host token : string).

Inductive Event :=
| next (err : option CustomError)
| res_json (status : Z) (msg : string) (data : Data)
| res_cookie (key value : string) (httpOnly : bool) (maxAge : Z)
| bcrypt_hash_called (data : string) (rounds : Z)
| bcrypt_compare_called (data hash : string)
| jwt_sign_called (p : JwtPayload) (expiresIn : string)
| emailService_called (to subject : string) (text : MailText)
| console_log (line : string).

(** ** The world a handler runs in *)

Record World := mkWorld {
  users : list User;     (* the collection, in insertion order *)
  clock : Z;             (* Date.now() *)
  nextId : Z;            (* the next ObjectId *)
  entropy : nat          (* what bcrypt draws its next salt from *)
}.

Definition with_users (w : World) (us : list User) : World :=
  mkWorld us (clock w) (nextId w) (entropy w).

Definition at_time (t : Z) (w : World) : World :=
  mkWorld (users w) t (nextId w) (entropy w).

(** The packages the controller requires.  [bcrypt_hash] takes the entropy
    its salt is generated from; [jwt_sign] takes the secret, the [expiresIn]
    option and the issue time in seconds ([iat]); [emailService] answers
    [None] when the mail went out and [Some msg] when it rejects with an
    error of that message. *)
Record Libs := mkLibs {
  bcrypt_hash : nat -> string -> Z -> string;
  bcrypt_compare : string -> string -> bool;
  jwt_sign : JwtPayload -> string -> string -> Z -> string;
  JWT_SECRET : string;
  emailService : string -> string -> MailText -> option string
}.

(** ** Handler monad: state, trace, [return] and exceptions *)

Inductive Completion (A : Type) :=
| Normal (a : A)          (* control reaches the next statement *)
| Returned                (* a [return] statement ended the handler *)
| Thrown (msg : string).  (* an exception whose [error.message] is [msg] *)

Arguments Normal {A} a.
Arguments Returned {A}.
Arguments Thrown {A} msg.

Definition Handler (A : Type) : Type :=
  World -> Completion A * World * list Event.

Definition pure {A} (a : A) : Handler A :=
  fun w => (Normal a, w, []).

Definition bind {A B} (m : Handler A) (f : A -> Handler B) : Handler B :=
  fun w =>
    match m w with
    | (Normal a, w1, t1) =>
        match f a w1 with
        | (c, w2, t2) => (c, w2, t1 ++ t2)
        end
    | (Returned, w1, t1) => (Returned, w1, t1)
    | (Thrown msg, w1, t1) => (Thrown msg, w1, t1)
    end.

Notation "x <- m ;; k" := (bind m (fun x => k))
  (at level 61, m at next level, right associativity).
Notation "m ;; k" := (bind m (fun _ => k))
  (at level 61, right associativity).

Definition return_ {A} : Handler A :=
  fun w => (Returned, w, []).

Definition throw {A} (msg : string) : Handler A :=
  fun w => (Thrown msg, w, []).

Definition emit (e : Event) : Handler unit :=
  fun w => (Normal tt, w, [e]).

Definition when (b : bool) (m : Handler unit) : Handler unit :=
  if b then m else pure tt.

(** [try { body } catch (error) { handler(error.message) }] *)
Definition try_catch (body_ : Handler unit) (handler : string -> Handler unit)
  : Handler unit :=
  fun w =>
    match body_ w with
    | (Thrown msg, w1, t1) =>
        match handler msg w1 with
        | (c, w2, t2) => (c, w2, t1 ++ t2)
        end
    | r => r
    end.

(** [next(new CustomError(msg, code))] *)
Definition next_error (msg : string) (code : Z) : Handler unit :=
  emit (next (Some (mkCustomError msg code))).

(** Reading a property of [null]. *)
Definition null_property {A} (prop : string) : Handler A :=
  throw ("Cannot read properties of null (reading '" ++ prop ++ "')")%string.

Definition Date_now : Handler Z :=
  fun w => (Normal (clock w), w, []).

(** Running a handler to its end: the final world and the trace. *)
Definition run (h : Handler unit) (w : World) : World * list Event :=
  match h w with
  | (_, w', t) => (w', t)
  end.

(** jsonwebtoken reads an [expiresIn] string such as "30m" or "1h" with the
    ms package: a decimal number followed by a unit; the result is in
    milliseconds. *)
Definition digit (c : ascii) : option Z :=
  let n := Z.of_nat (nat_of_ascii c) in
  if (48 <=? n) && (n <=? 57) then Some (n - 48) else None.

Fixpoint ms_number (s : string) (acc : Z) : Z * string :=
  match s with
  | String c rest =>
      match digit c with
      | Some d => ms_number rest (10 * acc + d)
      | None => (acc, s)
      end
  | EmptyString => (acc, s)
  end.

Definition ms (s : string) : option Z :=
  match s with
  | EmptyString => None
  | String c _ =>
      match digit c with
      | None => None
      | Some _ =>
          match ms_number s 0 with
          | (n, "s") => Some (n * 1000)
          | (n, "m") => Some (n * 60 * 1000)
          | (n, "h") => Some (n * 60 * 60 * 1000)
          | (n, "d") => Some (n * 24 * 60 * 60 * 1000)
          | _ => None
          end
      end
  end.

(** The error responder the controller tests mount behind the routes:
    [res.status(err.statusCode || 500).json({ message: err.message ||
    'Internal Server Error' })]. *)
Definition errorHandler (err : CustomError) : Event :=
  res_json (if statusCode err =? 0 then 500 else statusCode err)
           (if String.eqb (message err) "" then "Internal Server Error"
            else message err)
           NoData.

(** What the client receives: the first response written, either by the
    handler itself or by the error responder reached through [next(err)]. *)
Fixpoint response (t : list Event) : option (Z * string * Data) :=
  match t with
  | [] => None
  | res_json s m d :: _ => Some (s, m, d)
  | next (Some err) :: _ =>
      match errorHandler err with
      | res_json s m d => Some (s, m, d)
      | _ => None
      end
  | _ :: t' => response t'
  end.

(** ** The [users] collection *)

(** [User.findOne({ email })]: the first document with that email. *)
Definition User_findOne_email (e : string) : Handler (option User) :=
  fun w => (Normal (find (fun u => String.eqb (email u) e) (users w)), w, []).

(** The filter [{ resetToken: token, resetTokenExpiration: { $gt: now } }];
    a document without one of the two fields does not match. *)
Definition reset_filter (token : string) (now : Z) (u : User) : bool :=
  match resetToken u, resetTokenExpiration u with
  | Some t, Some e => String.eqb t token && (now <? e)
  | _, _ => false
  end.

Definition User_findOne_reset (token : string) (now : Z)
  : Handler (option User) :=
  fun w => (Normal (find (reset_filter token now) (users w)), w, []).

(** [new User({ name, email, password, role })]: a fresh ObjectId, the
    schema defaults ([role] "user" when undefined, [balance] 0); the
    timestamps are filled in by [save]. *)
Definition new_User (nm em pw : string) (rl : option string) : Handler User :=
  fun w =>
    (Normal (mkUser (nextId w) nm em pw
                    (match rl with Some r => r | None => "user" end)
                    0 None None 0 0),
     mkWorld (users w) (clock w) (nextId w + 1) (entropy w),
     []).

(** [doc.save()] on a new document: validation, the unique index on
    [email], the two timestamps, then the insert.  Answers the saved
    document. *)
Definition save_new (doc : User) : Handler User :=
  fun w =>
    match validate doc with
    | Some msg => (Thrown msg, w, [])
    | None =>
        if existsb (fun u => String.eqb (email u) (email doc)) (users w) then
          (Thrown "E11000 duplicate key error collection: users index: email_1",
           w, [])
        else
          let d := mkUser (_id doc) (name doc) (email doc) (password doc)
                          (role doc) (balance doc) (resetToken doc)
                          (resetTokenExpiration doc) (clock w) (clock w) in
          (Normal d, with_users w (users w ++ [d]), [])
    end.

(** The update [save] issues for a loaded document: the stored document of
    that [_id] is replaced, with [updatedAt] refreshed, unless nothing was
    modified. *)
Fixpoint updateOne (doc : User) (now : Z) (us : list User) : list User :=
  match us with
  | [] => []
  | u :: us' =>
      if _id u =? _id doc then
        (if User_eq_dec u doc then u else set_updatedAt doc now) :: us'
      else u :: updateOne doc now us'
  end.

(** [doc.save()] on a document loaded by [findOne]. *)
Definition save (doc : User) : Handler unit :=
  fun w =>
    match validate doc with
    | Some msg => (Thrown msg, w, [])
    | None => (Normal tt, with_users w (updateOne doc (clock w) (users w)), [])
    end.

Definition isSome {A} (o : option A) : bool :=
  match o with Some _ => true | None => false end.

(** ** controllers/authController.js *)

Section AuthController.

Variable L : Libs.

(** [await bcrypt.hash(data, rounds)] *)
Definition await_bcrypt_hash (data : string) (rounds : Z) : Handler string :=
  fun w =>
    (Normal (bcrypt_hash L (entropy w) data rounds),
     mkWorld (users w) (clock w) (nextId w) (S (entropy w)),
     [bcrypt_hash_called data rounds]).

(** [await bcrypt.compare(data, hash)] *)
Definition await_bcrypt_compare (data hash : string) : Handler bool :=
  fun w =>
    (Normal (bcrypt_compare L data hash), w, [bcrypt_compare_called data hash]).

(** [jwt.sign(payload, process.env.JWT_SECRET, { expiresIn })]; the issue
    time is the clock in whole seconds. *)
Definition call_jwt_sign (p : JwtPayload) (expiresIn : string)
  : Handler string :=
  fun w =>
    (Normal (jwt_sign L p (JWT_SECRET L) expiresIn (clock w / 1000)),
     w, [jwt_sign_called p expiresIn]).

(** [await emailService(to, subject, text)] *)
Definition await_emailService (to subject : string) (text : MailText)
  : Handler unit :=
  fun w =>
    match emailService L to subject text with
    | None => (Normal tt, w, [emailService_called to subject text])
    | Some msg => (Thrown msg, w, [emailService_called to subject text])
    end.

(** The branch [else return next(new CustomError("Registration process
    failed.", 400))] of the source is guarded by [if (newUser)] on an
    object, which is always truthy. *)
Definition register (req : Request) : Handler unit :=
  try_catch
    (let name_ := get "name" (body req) in
     let email_ := get "email" (body req) in
     let password_ := get "password" (body req) in
     let role_ := get "role" (body req) in
     when (negb (truthy name_) || negb (truthy email_)
           || negb (truthy password_))
          (next_error "Input fields are empty. Please fill the fields." 400 ;;
           return_) ;;
     existingUser <- User_findOne_email (str email_) ;;
     when (isSome existingUser)
          (next_error "User already registered. Please use login for process."
                      400 ;;
           return_) ;;
     hashPassword <- await_bcrypt_hash (str password_) 10 ;;
     newUser <- new_User (str name_) (str email_) hashPassword role_ ;;
     newUser <- save_new newUser ;;
     emit (res_json 201 "New user created." (DataUser newUser)))
    (fun msg => next_error msg 500 ;; return_).

(** The guard on [!existUser] calls [next] without [return]: control goes on
    to [existUser.password]. *)
Definition login (req : Request) : Handler unit :=
  try_catch
    (let email_ := get "email" (body req) in
     let password_ := get "password" (body req) in
     when (negb (truthy email_) || negb (truthy password_))
          (next_error "Input fields are empty." 400 ;; return_) ;;
     existUser <- User_findOne_email (str email_) ;;
     when (negb (isSome existUser))
          (next_error
             "User not registered. Please create account using register and login again."
             400) ;;
     stored <- match existUser with
               | Some u => pure (password u)
               | None => null_property "password"
               end ;;
     comparePassword <- await_bcrypt_compare (str password_) stored ;;
     when (negb comparePassword)
          (next_error "Password incorrect. Please try again" 400 ;; return_) ;;
     match existUser with
     | Some u =>
         if comparePassword then
           accessToken <- call_jwt_sign (IdRole (_id u) (role u)) "1h" ;;
           emit (res_cookie "authToken" accessToken true 3600000) ;;
           when (truthy (Some accessToken))
                (emit (res_json 200 "Login successful."
                                (DataToken accessToken))) ;;
           emit (console_log (role u ++ " logged.")%string)
         else pure tt
     | None => pure tt
     end)
    (fun msg => next_error msg 500 ;; return_).

Definition forgotPassword (req : Request) : Handler unit :=
  try_catch
    (let email_ := get "email" (body req) in
     when (negb (truthy email_))
          (next_error "Input filed is empty" 400 ;; return_) ;;
     existUser <- User_findOne_email (str email_) ;;
     match existUser with
     | None => next_error "User not found." 404 ;; return_
     | Some existUser =>
         resetToken_ <- call_jwt_sign (EmailClaim (email existUser)) "30m" ;;
         let existUser := set_resetToken existUser (Some resetToken_) in
         now <- Date_now ;;
         let existUser :=
           set_resetTokenExpiration existUser (Some (now + 18000000)) in
         save existUser ;;
         await_emailService (email existUser)
                            "Password reset for Financial Tracker"
                            (ResetMail (headers_host req) resetToken_)
     end)
    (fun msg => next_error msg 500 ;; return_).

Definition resetPassword (req : Request) : Handler unit :=
  try_catch
    (let password_ := get "password" (body req) in
     when (negb (truthy password_))
          (next_error "Enter your new password." 400 ;; return_) ;;
     now <- Date_now ;;
     existUser <- User_findOne_reset (params_token req) now ;;
     match existUser with
     | None =>
         next_error "Password reset token expired or invalid." 404 ;; return_
     | Some existUser =>
         hashed <- await_bcrypt_hash (str password_) 10 ;;
         let existUser := set_password existUser hashed in
         let existUser := set_resetToken existUser None in
         let existUser := set_resetTokenExpiration existUser None in
         save existUser ;;
         emit (res_json 200 "Password reset successful." NoData)
     end)
    (fun msg => next_error msg 500 ;; return_).

End AuthController.

(** ** middlewares/authorizationRoles.js and routes/userRoutes.js *)

(** [allowedRoles.includes(req.user.role)] *)
Definition includes (allowedRoles : list string) (r : option string) : bool :=
  match r with
  | Some r => existsb (String.eqb r) allowedRoles
  | None => false
  end.

Definition authorizationRoles (allowedRoles : list string) (req : Request)
  : Handler unit :=
  when (match user req with
        | None => true
        | Some c => negb (includes allowedRoles (claim_role c))
        end)
       (next_error
          "You are unauthorized for this action. Please contact system administration."
          401 ;;
        return_) ;;
  emit (next None).

(** A layer of a route: it may replace the request object's fields (the
    token middleware sets [req.user]), change the world and make calls. *)
Definition Middleware := Request -> World -> Request * World * list Event.

Definition guard (allowedRoles : list string) : Middleware :=
  fun req w =>
    match run (authorizationRoles allowedRoles req) w with
    | (w', t) => (req, w', t)
    end.

(** [next()] was called: the following layer runs. *)
Definition called_next (t : list Event) : bool :=
  existsb (fun e => match e with next None => true | _ => false end) t.

Fixpoint dispatch (stack : list Middleware) (req : Request) (w : World)
  : World * list Event :=
  match stack with
  | [] => (w, [])
  | layer :: rest =>
      match layer req w with
      | (req', w', t) =>
          if called_next t then
            match dispatch rest req' w' with
            | (w'', t') => (w'', t ++ t')
            end
          else (w', t)
      end
  end.

Inductive Method := GET | POST | PUT | DELETE.

Record Route := mkRoute {
  method : Method;
  path : string;
  stack : list Middleware
}.

Section UserRoutes.

(** middlewares/validateToken.js and controllers/userController.js are not
    part of the sources at hand: the router is taken over any of them. *)
Variable validateToken : Middleware.
Variables getUsers getUserByID updateUser deleteUser : Middleware.

Definition router : list Route :=
  [ mkRoute GET "/users" [validateToken; guard ["admin"]; getUsers];
    mkRoute GET "/user/:id"
            [validateToken; guard ["user"; "admin"]; getUserByID];
    mkRoute PUT "/user/:id"
            [validateToken; guard ["user"; "admin"]; updateUser];
    mkRoute DELETE "/user/:id" [validateToken; guard ["admin"]; deleteUser] ].

End UserRoutes.

(** ** A concrete instance of the packages

    Used to run the handlers on concrete requests.  The hash keeps the salt
    apart from the data, as bcrypt's output format does; the token is
    determined by claims, secret, lifetime and issue second, as an HS256
    signature is. *)
Module Sample.

Definition salt (seed : nat) : ascii :=
  ascii_of_nat (97 + Nat.modulo seed 26).

Definition hash (seed : nat) (data : string) (rounds : Z) : string :=
  String "$" (String (salt seed) (String "$" data)).

Definition compare (data h : string) : bool :=
  match h with
  | String "$" (String _ (String "$" rest)) => String.eqb rest data
  | _ => false
  end.

Definition claims (p : JwtPayload) : string :=
  match p with
  | IdRole i r => ("id=" ++ NilZero.string_of_int (Z.to_int i) ++ ",role=" ++ r)%string
  | EmailClaim e => ("email=" ++ e)%string
  end.

Definition sign (p : JwtPayload) (secret expiresIn : string) (iat : Z)
  : string :=
  ("jwt." ++ claims p ++ "." ++ expiresIn ++ "."
   ++ NilZero.string_of_int (Z.to_int iat) ++ "." ++ secret)%string.

Definition libs : Libs :=
  mkLibs hash compare sign "s3cret" (fun _ _ _ => None).

Definition empty : World := mkWorld [] 1000000 1 0%nat.

Definition post (b : Obj) : Request := mkRequest b "" "localhost" None.

Definition post_token (token : string) (b : Obj) : Request :=
  mkRequest b token "localhost" None.

(** A small history: Alice registers at time 1000 and asks for a reset
    link at time 2000. *)
Definition alice_register : Request :=
  post [("name", "Alice"); ("email", "a@x.com"); ("password", "P1")].

Definition alice_forgot : Request := post [("email", "a@x.com")].

Definition alice1 : User :=
  mkUser 1 "Alice" "a@x.com" "$a$P1" "user" 0 None None 1000 1000.

Definition w1 : World := mkWorld [alice1] 1000 2 1%nat.

Definition token1 : string := "jwt.email=a@x.com.30m.2.s3cret".

Definition alice2 : User :=
  mkUser 1 "Alice" "a@x.com" "$a$P1" "user" 0
         (Some token1) (Some 18002000) 1000 2000.

Definition w2 : World := mkWorld [alice2] 2000 2 1%nat.

(** Alice after a reset at time 5000, to the password she already had. *)
Definition alice3 : User :=
  mkUser 1 "Alice" "a@x.com" "$b$P1" "user" 0 None None 1000 5000.

(** A token middleware that authenticates everybody as a plain user, and a
    protected handler that would empty the collection. *)
Definition as_user : Middleware :=
  fun req w =>
    (mkRequest (body req) (params_token req) (headers_host req)
               (Some (mkClaims 7 (Some "user"))),
     w, [next None]).

Definition wipe : Middleware :=
  fun req w => (req, with_users w [], [res_json 200 "User role deleted." NoData]).

(** The same packages with a mail service that rejects. *)
Definition libs_mail_down : Libs :=
  mkLibs hash compare sign "s3cret"
         (fun _ _ _ => Some "connect ECONNREFUSED 127.0.0.1:587").

(** Token middlewares: one that finds no valid token and answers 401
    itself, one that authenticates everybody with a role the routes do not
    know; and a protected handler that answers 200. *)
Definition no_token : Middleware :=
  fun req w =>
    (req, w, [next (Some (mkCustomError "No token, authorization denied." 401))]).

Definition as_guest : Middleware :=
  fun req w =>
    (mkRequest (body req) (params_token req) (headers_host req)
               (Some (mkClaims 8 (Some "guest"))),
     w, [next None]).

Definition show : Middleware :=
  fun req w => (req, w, [res_json 200 "Fetched data" NoData]).

Definition bob_register : Request :=
  post [("name", "Bob"); ("email", "b@x.com"); ("password", "P2");
        ("role", "admin")].

Definition bob : User :=
  mkUser 2 "Bob" "b@x.com" "$b$P2" "admin" 0 None None 3000 3000.

(** bcrypt reads at most 72 bytes of the data: the same packages with a
    hash that keeps that prefix only. *)
Definition hash72 (seed : nat) (data : string) (rounds : Z) : string :=
  String "$" (String (salt seed) (String "$" (substring 0 72 data))).

Definition compare72 (data h : string) : bool :=
  match h with
  | String "$" (String _ (String "$" rest)) =>
      String.eqb rest (substring 0 72 data)
  | _ => false
  end.

Definition libs72 : Libs :=
  mkLibs hash72 compare72 sign "s3cret" (fun _ _ _ => None).

Definition a72 : string :=
  Eval cbv in string_of_list_ascii (repeat "a"%char 72).

End Sample.

(** * Vocabulary of the statements *)

(** ** The role guard *)

(** The request reaching the guard is not let through: no [req.user], or a
    role outside the allow-list. *)
Definition role_refused (allowedRoles : list string) (req : Request) : Prop :=
  match user req with
  | None => True
  | Some c => includes allowedRoles (claim_role c) = false
  end.

Definition unauthorized : CustomError :=
  mkCustomError
    "You are unauthorized for this action. Please contact system administration."
    401.

(** ** The collection *)

(** What the store guarantees of the collection: [_id]s are unique and
    every document passed the schema's validation. *)
Definition store_ok (us : list User) : Prop :=
  NoDup (map _id us) /\ Forall (fun u => validate u = None) us.

(** ** Assumptions on bcrypt *)

(** A hash is never the empty string. *)
Definition hash_nonempty (L : Libs) : Prop :=
  forall seed data rounds, bcrypt_hash L seed data rounds <> "".

(** A hash is never the data it was computed from. *)
Definition hash_hides (L : Libs) : Prop :=
  forall seed data rounds, bcrypt_hash L seed data rounds <> data.

(** [compare] accepts the data a hash was computed from. *)
Definition compare_accepts (L : Libs) : Prop :=
  forall seed data rounds,
    bcrypt_compare L data (bcrypt_hash L seed data rounds) = true.

(** ** What the success paths write *)

(** The document resetPassword saves for the user [u] it found. *)
Definition reset_doc (L : Libs) (req : Request) (w : World) (u : User) : User :=
  mkUser (_id u) (name u) (email u)
         (bcrypt_hash L (entropy w) (str (get "password" (body req))) 10)
         (role u) (balance u) None None (createdAt u) (clock w).

(** The document forgotPassword saves for the user [u] it found. *)
Definition forgot_doc (L : Libs) (w : World) (u : User) : User :=
  mkUser (_id u) (name u) (email u) (password u) (role u) (balance u)
         (Some (jwt_sign L (EmailClaim (email u)) (JWT_SECRET L) "30m"
                         (clock w / 1000)))
         (Some (clock w + 18000000))
         (createdAt u) (updatedAt u).

(** The stored document after forgotPassword: [updatedAt] moves unless the
    very same token and expiration were already there. *)
Definition forgot_stored (L : Libs) (w : World) (u : User) : User :=
  if User_eq_dec u (forgot_doc L w u) then u
  else set_updatedAt (forgot_doc L w u) (clock w).

Definition reset_mail (L : Libs) (req : Request) (w : World) (u : User)
  : Event :=
  emailService_called
    (email u) "Password reset for Financial Tracker"
    (ResetMail (headers_host req)
               (jwt_sign L (EmailClaim (email u)) (JWT_SECRET L) "30m"
                         (clock w / 1000))).

(** Every field of a document other than [password], [resetToken] and
    [resetTokenExpiration] agrees between [u] and [u']. *)
Definition other_fields_equal (u u' : User) : Prop :=
  _id u' = _id u /\ name u' = name u /\ email u' = email u /\
  role u' = role u /\ balance u' = balance u /\
  createdAt u' = createdAt u /\ updatedAt u' = updatedAt u.

(** [store_ok], with every [_id] below the ObjectId counter, holds of the
    empty world and is kept by the four handlers. *)
Definition world_ok (w : World) : Prop :=
  store_ok (users w) /\ Forall (fun u => _id u < nextId w) (users w).

(** ** Histories *)

Inductive Call := Register | Login | ForgotPassword | ResetPassword.

Definition handle (L : Libs) (c : Call) : Request -> Handler unit :=
  match c with
  | Register => register L
  | Login => login L
  | ForgotPassword => forgotPassword L
  | ResetPassword => resetPassword L
  end.

(** The worlds reached from an empty collection by requests to the four
    auth routes, each arriving at some time [t]. *)
Inductive reachable (L : Libs) : World -> Prop :=
| reachable_empty (t k : Z) (e : nat) : reachable L (mkWorld [] t k e)
| reachable_request (w : World) (c : Call) (req : Request) (t : Z) :
    reachable L w ->
    reachable L (fst (run (handle L c req) (at_time t w))).

(** Every stored password is a cost-10 bcrypt hash. *)
Definition passwords_hashed (L : Libs) (us : list User) : Prop :=
  forall u, In u us ->
            exists seed plaintext,
              password u = bcrypt_hash L seed plaintext 10.

(** ** Input guards and terminal calls *)

(** The body fields each handler tests with [!field] before anything else,
    and the message of the 400 error it forwards when one is falsy. *)
Definition required (c : Call) : list string :=
  match c with
  | Register => ["name"; "email"; "password"]
  | Login => ["email"; "password"]
  | ForgotPassword => ["email"]
  | ResetPassword => ["password"]
  end.

Definition missing_message (c : Call) : string :=
  match c with
  | Register => "Input fields are empty. Please fill the fields."
  | Login => "Input fields are empty."
  | ForgotPassword => "Input filed is empty"
  | ResetPassword => "Enter your new password."
  end.

(** A call that answers the request: [next(err)] or [res.status().json()]. *)
Definition terminal (e : Event) : bool :=
  match e with
  | next (Some _) => true
  | res_json _ _ _ => true
  | _ => false
  end.

Definition terminal_calls (t : list Event) : nat :=
  length (filter terminal t).

(** ** Fields the auth handlers never assign *)

Definition identity (u : User) : Z * string * string * string * Z * Z :=
  (_id u, name u, email u, role u, balance u, createdAt u).

(** [resetToken] and [resetTokenExpiration] are both set or both unset. *)
Definition reset_fields_paired (u : User) : Prop :=
  isSome (resetToken u) = isSome (resetTokenExpiration u).

(** The layer of a route that the guard protects. *)
Definition protected_handler (r : Route) : Middleware :=
  nth 2 (stack r) (fun req w => (req, w, [])).

(** ** Reset tokens *)

(** A signed token carries its claims: reset tokens signed for different
    emails differ. *)
Definition jwt_names_email (L : Libs) : Prop :=
  forall e1 e2 iat1 iat2,
    jwt_sign L (EmailClaim e1) (JWT_SECRET L) "30m" iat1 =
    jwt_sign L (EmailClaim e2) (JWT_SECRET L) "30m" iat2 ->
    e1 = e2.

(** Every stored reset token was signed by forgotPassword over the email of
    the user that holds it. *)
Definition tokens_signed (L : Libs) (us : list User) : Prop :=
  forall u k,
    In u us -> resetToken u = Some k ->
    exists iat,
      k = jwt_sign L (EmailClaim (email u)) (JWT_SECRET L) "30m" iat.

Definition not_dot (c : ascii) : Prop := c <> "."%char.

(** * Properties *)

(** ** Lists and the collection *)

Lemma find_In_some {A} (p : A -> bool) (l : list A) (x : A) :
  In x l -> p x = true -> exists y, find p l = Some y.
Proof.
  induction l as [|a l IH]; simpl; intros Hin Hp; [contradiction|].
  destruct (p a) eqn:Ea; [eauto|].
  destruct Hin as [->|Hin]; [congruence|auto].
Qed.

Lemma find_all_false {A} (p : A -> bool) (l : list A) :
  (forall x, In x l -> p x = false) -> find p l = None.
Proof.
  induction l as [|a l IH]; simpl; intros H; [reflexivity|].
  rewrite (H a (or_introl eq_refl)). apply IH. intros x Hx. apply H. now right.
Qed.

Lemma truthy_str (v : option string) :
  truthy v = true -> v = Some (str v) /\ str v <> "".
Proof.
  destruct v as [s|]; simpl; [|discriminate].
  intros H. split; [reflexivity|].
  apply String.eqb_neq. now destruct (String.eqb s "").
Qed.

Ltac unfold_handler :=
  unfold run, try_catch, bind, when, next_error, emit, return_, pure,
    Date_now, User_findOne_email, User_findOne_reset, null_property, throw.

(** ** Registration with a taken email *)

(** C7: a register request with non-empty name, email and password whose
    email is that of a stored user is answered by
    [next(new CustomError("User already registered...", 400))] and nothing
    else happens: the world, and so the collection, is the one before,
    whatever the name, password and role submitted. *)
Theorem register_existing_email_rejected (L : Libs) (req : Request)
  (w : World) (u : User) :
  truthy (get "name" (body req)) = true ->
  truthy (get "email" (body req)) = true ->
  truthy (get "password" (body req)) = true ->
  In u (users w) ->
  email u = str (get "email" (body req)) ->
  run (register L req) w =
    (w, [next (Some (mkCustomError
                       "User already registered. Please use login for process."
                       400))])
  /\ response (snd (run (register L req) w)) =
       Some (400, "User already registered. Please use login for process.",
             NoData).
Proof.
  intros Hn He Hp Hin Hu.
  assert (Hf : exists y,
             find (fun x => String.eqb (email x) (str (get "email" (body req))))
                  (users w) = Some y).
  { apply find_In_some with (x := u); [assumption|].
    apply String.eqb_eq. assumption. }
  destruct Hf as [y Hy].
  assert (E : run (register L req) w =
    (w, [next (Some (mkCustomError
                       "User already registered. Please use login for process."
                       400))])).
  { unfold register. unfold_handler.
    rewrite Hn, He, Hp. cbn. rewrite Hy. reflexivity. }
  split; [exact E|]. rewrite E. reflexivity.
Qed.

(** ** Password reset with a token that selects nobody *)

Lemma reset_filter_true (token : string) (now : Z) (u : User) :
  reset_filter token now u = true <->
  resetToken u = Some token /\
  exists e, resetTokenExpiration u = Some e /\ now < e.
Proof.
  unfold reset_filter.
  destruct (resetToken u) as [t|], (resetTokenExpiration u) as [e|];
    try (split; [discriminate | intros [H1 [e' [H2 _]]]; discriminate]).
  rewrite Bool.andb_true_iff, String.eqb_eq, Z.ltb_lt. split.
  - intros [-> H]. eauto.
  - intros [H1 [e' [H2 H3]]]. inversion H1. inversion H2. subst. auto.
Qed.

Lemma resetPassword_not_found (L : Libs) (req : Request) (w : World) :
  truthy (get "password" (body req)) = true ->
  find (reset_filter (params_token req) (clock w)) (users w) = None ->
  run (resetPassword L req) w =
    (w, [next (Some (mkCustomError "Password reset token expired or invalid."
                                   404))]).
Proof.
  intros Hp Hf. unfold resetPassword. unfold_handler. rewrite Hp. cbn.
  rewrite Hf. reflexivity.
Qed.

(** C5: a resetPassword request with a non-empty password whose token is
    carried by no stored user, or only by users whose resetTokenExpiration
    is at most the current time, is answered by [next] with the 404 error
    "Password reset token expired or invalid." and leaves the world (every
    user record) as it was. *)
Theorem resetPassword_bad_token_rejected (L : Libs) (req : Request)
  (w : World) :
  truthy (get "password" (body req)) = true ->
  (forall u e, In u (users w) ->
               resetToken u = Some (params_token req) ->
               resetTokenExpiration u = Some e -> e <= clock w) ->
  run (resetPassword L req) w =
    (w, [next (Some (mkCustomError "Password reset token expired or invalid."
                                   404))])
  /\ response (snd (run (resetPassword L req) w)) =
       Some (404, "Password reset token expired or invalid.", NoData).
Proof.
  intros Hp Hexp.
  assert (Hf : find (reset_filter (params_token req) (clock w)) (users w)
               = None).
  { apply find_all_false. intros u Hin.
    destruct (reset_filter (params_token req) (clock w) u) eqn:E;
      [|reflexivity].
    apply reset_filter_true in E. destruct E as [Ht [e [He Hlt]]].
    specialize (Hexp u e Hin Ht He). lia. }
  assert (E : run (resetPassword L req) w =
    (w, [next (Some (mkCustomError "Password reset token expired or invalid."
                                   404))])).
  { apply resetPassword_not_found; assumption. }
  split; [exact E|]. rewrite E. reflexivity.
Qed.

(** ** Login with an unknown email *)

(** C4: a login request with non-empty email and password, when no stored
    user has that email, calls [next] with the 400 error "User not
    registered..."; that is the response the client gets.  bcrypt.compare
    is never called: reading [existUser.password] on [null] throws first,
    and the catch block then hands a second, 500, error to [next].  The
    world is unchanged. *)
Theorem login_unknown_email_rejected (L : Libs) (req : Request) (w : World) :
  truthy (get "email" (body req)) = true ->
  truthy (get "password" (body req)) = true ->
  (forall u, In u (users w) -> email u <> str (get "email" (body req))) ->
  let t := snd (run (login L req) w) in
  run (login L req) w =
    (w, [next (Some (mkCustomError
           "User not registered. Please create account using register and login again."
           400));
         next (Some (mkCustomError
           "Cannot read properties of null (reading 'password')" 500))])
  /\ response t =
       Some (400,
             "User not registered. Please create account using register and login again.",
             NoData)
  /\ (forall data hash, ~ In (bcrypt_compare_called data hash) t).
Proof.
  intros He Hp Hno t.
  assert (Hf : find (fun x => String.eqb (email x) (str (get "email" (body req))))
                    (users w) = None).
  { apply find_all_false. intros u Hin. apply String.eqb_neq. auto. }
  assert (E : run (login L req) w =
    (w, [next (Some (mkCustomError
           "User not registered. Please create account using register and login again."
           400));
         next (Some (mkCustomError
           "Cannot read properties of null (reading 'password')" 500))])).
  { unfold login. unfold_handler. rewrite He, Hp. cbn. rewrite Hf.
    reflexivity. }
  subst t. rewrite E. split; [reflexivity|]. split; [reflexivity|].
  intros data hash [H|[H|[]]]; discriminate.
Qed.

(** ** The role guard on the admin routes *)

Lemma guard_refuses (allowedRoles : list string) (req : Request) (w : World) :
  role_refused allowedRoles req ->
  guard allowedRoles req w = (req, w, [next (Some unauthorized)]).
Proof.
  unfold role_refused, guard, authorizationRoles. unfold_handler.
  destruct (user req) as [c|]; [intros ->|intros _]; reflexivity.
Qed.

Lemma guarded_stack_refuses (validateToken handler : Middleware)
  (allowedRoles : list string) (req req1 : Request) (w w1 : World)
  (t1 : list Event) :
  validateToken req w = (req1, w1, t1) ->
  called_next t1 = true ->
  role_refused allowedRoles req1 ->
  dispatch [validateToken; guard allowedRoles; handler] req w =
    (w1, t1 ++ [next (Some unauthorized)]).
Proof.
  intros Hv Hn Hr. simpl. rewrite Hv, Hn, (guard_refuses _ _ _ Hr).
  reflexivity.
Qed.

(** C9: on the admin-only routes, GET /users and DELETE /user/:id, a
    request that passed token validation with a role outside the route's
    allow-list (admin) is stopped by the guard: it calls [next] with the 401
    error and the route ends there.  Whatever the protected handler is, it
    is not run: the trace is the token middleware's followed by the guard's
    single call, and the world is the one the token middleware left. *)
Theorem admin_routes_refuse_other_roles
  (validateToken getUsers getUserByID updateUser deleteUser : Middleware)
  (r : Route) (req req1 : Request) (w w1 : World) (t1 : list Event) :
  In r (router validateToken getUsers getUserByID updateUser deleteUser) ->
  (method r = GET /\ path r = "/users") \/
  (method r = DELETE /\ path r = "/user/:id") ->
  validateToken req w = (req1, w1, t1) ->
  called_next t1 = true ->
  role_refused ["admin"] req1 ->
  dispatch (stack r) req w = (w1, t1 ++ [next (Some unauthorized)])
  /\ response [next (Some unauthorized)] =
       Some (401,
             "You are unauthorized for this action. Please contact system administration.",
             NoData).
Proof.
  intros Hin Hadm Hv Hn Hr. split; [|reflexivity].
  simpl in Hin.
  destruct Hin as [<-|[<-|[<-|[<-|[]]]]]; simpl in Hadm;
    destruct Hadm as [[Hm Hp]|[Hm Hp]]; try discriminate;
    cbn [stack]; eapply guarded_stack_refuses; eassumption.
Qed.

(** ** The collection under [save] *)

Lemma validate_fields (u v : User) :
  name u = name v -> email u = email v -> password u = password v ->
  role u = role v -> validate u = validate v.
Proof.
  unfold validate. intros -> -> -> ->. reflexivity.
Qed.

Lemma validate_new_password (u v : User) :
  validate u = None ->
  name v = name u -> email v = email u -> role v = role u ->
  password v <> "" ->
  validate v = None.
Proof.
  unfold validate. intros H -> -> -> Hp.
  destruct (String.eqb (name u) ""); [discriminate|].
  destruct (String.eqb (email u) ""); [discriminate|].
  destruct (String.eqb (password u) ""); [discriminate|].
  destruct (negb (in_enum (role u))); [discriminate|].
  apply String.eqb_neq in Hp. rewrite Hp. reflexivity.
Qed.

Lemma find_split {A} (p : A -> bool) (l : list A) (u : A) :
  find p l = Some u ->
  exists l1 l2, l = l1 ++ u :: l2 /\ p u = true /\
                (forall x, In x l1 -> p x = false).
Proof.
  induction l as [|a l IH]; simpl; [discriminate|].
  destruct (p a) eqn:Ea.
  - intros [= ->]. exists [], l. repeat split; auto. intros x [].
  - intros H. destruct (IH H) as (l1 & l2 & -> & Hu & Hl1).
    exists (a :: l1), l2. repeat split; auto.
    intros x [<-|Hx]; auto.
Qed.

Lemma find_app_first {A} (p : A -> bool) (l1 l2 : list A) (u : A) :
  (forall x, In x l1 -> p x = false) -> p u = true ->
  find p (l1 ++ u :: l2) = Some u.
Proof.
  induction l1 as [|a l1 IH]; simpl; intros Hl Hu.
  - now rewrite Hu.
  - rewrite (Hl a (or_introl eq_refl)). apply IH; auto.
Qed.

Lemma updateOne_In (doc : User) (now : Z) (us : list User) (x : User) :
  In x (updateOne doc now us) -> In x us \/ x = set_updatedAt doc now.
Proof.
  induction us as [|a us IH]; simpl; [tauto|].
  destruct (_id a =? _id doc).
  - destruct (User_eq_dec a doc); simpl; intuition.
  - simpl. intuition.
Qed.

Lemma updateOne_split (doc u : User) (now : Z) (l1 l2 : list User) :
  NoDup (map _id (l1 ++ u :: l2)) ->
  _id doc = _id u ->
  updateOne doc now (l1 ++ u :: l2) =
    l1 ++ (if User_eq_dec u doc then u else set_updatedAt doc now) :: l2.
Proof.
  intros Hnd Hid. induction l1 as [|a l1 IH]; simpl.
  - rewrite Hid, Z.eqb_refl. reflexivity.
  - simpl in Hnd. inversion Hnd as [|? ? Hnotin Hnd']; subst.
    destruct (_id a =? _id doc) eqn:E.
    + exfalso. apply Hnotin. apply Z.eqb_eq in E. rewrite E, Hid.
      rewrite map_app. apply in_or_app. right. now left.
    + f_equal. apply IH. exact Hnd'.
Qed.

Lemma store_ok_valid (us : list User) (u : User) :
  store_ok us -> In u us -> validate u = None.
Proof.
  intros [_ Hv] Hin. rewrite Forall_forall in Hv. auto.
Qed.

(** ** The success paths, computed *)

Lemma resetPassword_found (L : Libs) (req : Request) (w : World) (u : User) :
  hash_nonempty L ->
  store_ok (users w) ->
  truthy (get "password" (body req)) = true ->
  find (reset_filter (params_token req) (clock w)) (users w) = Some u ->
  exists l1 l2,
    users w = l1 ++ u :: l2 /\
    run (resetPassword L req) w =
      (mkWorld (l1 ++ reset_doc L req w u :: l2) (clock w) (nextId w)
               (S (entropy w)),
       [bcrypt_hash_called (str (get "password" (body req))) 10;
        res_json 200 "Password reset successful." NoData]).
Proof.
  intros Hne Hok Hp Hf.
  destruct (find_split _ _ _ Hf) as (l1 & l2 & Hus & Hu & _).
  exists l1, l2. split; [exact Hus|].
  assert (Hin : In u (users w)).
  { rewrite Hus. apply in_or_app. right. now left. }
  pose proof (store_ok_valid _ _ Hok Hin) as Hval.
  apply reset_filter_true in Hu. destruct Hu as [Htok _].
  unfold resetPassword. unfold_handler. rewrite Hp. cbn. rewrite Hf. cbn.
  unfold save, await_bcrypt_hash. cbn.
  set (h := bcrypt_hash L (entropy w) (str (get "password" (body req))) 10).
  set (doc := set_resetTokenExpiration
                (set_resetToken (set_password u h) None) None).
  assert (Hvd : validate doc = None).
  { apply (validate_new_password u); try reflexivity; [exact Hval|].
    apply Hne. }
  rewrite Hvd. cbn. unfold with_users. cbn.
  rewrite Hus. rewrite updateOne_split.
  - destruct (User_eq_dec u doc) as [E|_].
    + exfalso. apply (f_equal resetToken) in E. subst doc. cbn in E.
      congruence.
    + reflexivity.
  - rewrite <- Hus. apply Hok.
  - reflexivity.
Qed.

Lemma forgotPassword_at (L : Libs) (req : Request) (w : World) (u : User)
  (l1 l2 : list User) :
  store_ok (users w) ->
  truthy (get "email" (body req)) = true ->
  users w = l1 ++ u :: l2 ->
  (forall x, In x l1 -> email x <> str (get "email" (body req))) ->
  email u = str (get "email" (body req)) ->
  run (forgotPassword L req) w =
    (with_users w (l1 ++ forgot_stored L w u :: l2),
     jwt_sign_called (EmailClaim (email u)) "30m"
     :: reset_mail L req w u
     :: match emailService L (email u)
                "Password reset for Financial Tracker"
                (ResetMail (headers_host req)
                   (jwt_sign L (EmailClaim (email u)) (JWT_SECRET L) "30m"
                             (clock w / 1000))) with
        | None => []
        | Some msg => [next (Some (mkCustomError msg 500))]
        end).
Proof.
  intros Hok He Hus Hl1 Hu.
  assert (Hf : find (fun x => String.eqb (email x)
                                 (str (get "email" (body req))))
                    (users w) = Some u).
  { rewrite Hus. apply find_app_first.
    - intros x Hx. apply String.eqb_neq. auto.
    - apply String.eqb_eq. exact Hu. }
  assert (Hin : In u (users w)).
  { rewrite Hus. apply in_or_app. right. now left. }
  pose proof (store_ok_valid _ _ Hok Hin) as Hval.
  unfold forgotPassword. unfold_handler. rewrite He. cbn. rewrite Hf. cbn.
  unfold save, await_emailService, reset_mail. cbn.
  change (set_resetTokenExpiration
            (set_resetToken u
               (Some (jwt_sign L (EmailClaim (email u)) (JWT_SECRET L) "30m"
                               (clock w / 1000))))
            (Some (clock w + 18000000)))
    with (forgot_doc L w u).
  rewrite (validate_fields (forgot_doc L w u) u) by reflexivity.
  rewrite Hval. cbn.
  assert (Hup : updateOne (forgot_doc L w u) (clock w) (users w)
                = l1 ++ forgot_stored L w u :: l2).
  { rewrite Hus. apply updateOne_split; [|reflexivity].
    rewrite <- Hus. apply Hok. }
  rewrite Hup.
  destruct (emailService L (email u) "Password reset for Financial Tracker"
              (ResetMail (headers_host req)
                 (jwt_sign L (EmailClaim (email u)) (JWT_SECRET L) "30m"
                           (clock w / 1000)))); reflexivity.
Qed.

Lemma forgotPassword_found (L : Libs) (req : Request) (w : World) (u : User) :
  store_ok (users w) ->
  truthy (get "email" (body req)) = true ->
  find (fun x => String.eqb (email x) (str (get "email" (body req))))
       (users w) = Some u ->
  exists l1 l2,
    users w = l1 ++ u :: l2 /\
    run (forgotPassword L req) w =
      (with_users w (l1 ++ forgot_stored L w u :: l2),
       jwt_sign_called (EmailClaim (email u)) "30m"
       :: reset_mail L req w u
       :: match emailService L (email u)
                  "Password reset for Financial Tracker"
                  (ResetMail (headers_host req)
                     (jwt_sign L (EmailClaim (email u)) (JWT_SECRET L) "30m"
                               (clock w / 1000))) with
          | None => []
          | Some msg => [next (Some (mkCustomError msg 500))]
          end).
Proof.
  intros Hok He Hf.
  destruct (find_split _ _ _ Hf) as (l1 & l2 & Hus & Hu & Hl1).
  exists l1, l2. split; [exact Hus|].
  apply forgotPassword_at; auto.
  - intros x Hx. apply String.eqb_neq. auto.
  - apply String.eqb_eq. exact Hu.
Qed.

(** The fields of the stored document after forgotPassword. *)
Lemma forgot_stored_fields (L : Libs) (w : World) (u : User) :
  let s := forgot_stored L w u in
  _id s = _id u /\ name s = name u /\ email s = email u /\
  password s = password u /\ role s = role u /\ balance s = balance u /\
  createdAt s = createdAt u /\
  resetToken s = Some (jwt_sign L (EmailClaim (email u)) (JWT_SECRET L) "30m"
                                (clock w / 1000)) /\
  resetTokenExpiration s = Some (clock w + 18000000).
Proof.
  unfold forgot_stored.
  destruct (User_eq_dec u (forgot_doc L w u)) as [E|_]; cbn.
  - repeat split; try reflexivity.
    + now rewrite E at 1.
    + now rewrite E at 1.
  - repeat split; reflexivity.
Qed.

(** ** Issuing a reset token *)

(** C6: for a forgotPassword request whose (non-empty) email is that of a
    stored user, the user's document is saved with [resetTokenExpiration]
    equal to the request time plus 18 000 000 ms, which is 5 hours, and with
    [resetToken] the token signed over the claim [{ email }] of that user
    with [expiresIn: "30m"], 30 minutes; every other document stays as it
    was. *)
Theorem forgotPassword_sets_token_and_expiration (L : Libs) (req : Request)
  (w : World) (u : User) :
  store_ok (users w) ->
  truthy (get "email" (body req)) = true ->
  find (fun x => String.eqb (email x) (str (get "email" (body req))))
       (users w) = Some u ->
  let token := jwt_sign L (EmailClaim (email u)) (JWT_SECRET L) "30m"
                        (clock w / 1000) in
  exists l1 l2 u',
    users w = l1 ++ u :: l2 /\
    users (fst (run (forgotPassword L req) w)) = l1 ++ u' :: l2 /\
    _id u' = _id u /\
    resetToken u' = Some token /\
    resetTokenExpiration u' = Some (clock w + 18000000) /\
    18000000 = 5 * 60 * 60 * 1000 /\
    In (jwt_sign_called (EmailClaim (email u)) "30m")
       (snd (run (forgotPassword L req) w)) /\
    ms "30m" = Some (30 * 60 * 1000).
Proof.
  intros Hok He Hf token.
  destruct (forgotPassword_found L req w u Hok He Hf) as (l1 & l2 & Hus & E).
  destruct (forgot_stored_fields L w u) as (Hid & _ & _ & _ & _ & _ & _ & Ht & Hx).
  exists l1, l2, (forgot_stored L w u). rewrite E. cbn.
  repeat split; auto.
Qed.

(** C8: on the success path of forgotPassword (non-empty email of a stored
    user, the save and the mail going through) the handler signs the token,
    stores it on the user's document and calls the mail service, and that is
    all it does: it calls neither [res.status(..).json(..)] nor [next], so
    no response is written. *)
Theorem forgotPassword_success_no_response (L : Libs) (req : Request)
  (w : World) (u : User) :
  store_ok (users w) ->
  truthy (get "email" (body req)) = true ->
  find (fun x => String.eqb (email x) (str (get "email" (body req))))
       (users w) = Some u ->
  emailService L (email u) "Password reset for Financial Tracker"
    (ResetMail (headers_host req)
       (jwt_sign L (EmailClaim (email u)) (JWT_SECRET L) "30m"
                 (clock w / 1000))) = None ->
  let token := jwt_sign L (EmailClaim (email u)) (JWT_SECRET L) "30m"
                        (clock w / 1000) in
  let t := snd (run (forgotPassword L req) w) in
  t = [jwt_sign_called (EmailClaim (email u)) "30m";
       emailService_called (email u) "Password reset for Financial Tracker"
                           (ResetMail (headers_host req) token)]
  /\ response t = None
  /\ (forall e, In e t ->
        (forall err, e <> next err) /\
        (forall s m d, e <> res_json s m d))
  /\ exists u', In u' (users (fst (run (forgotPassword L req) w))) /\
                _id u' = _id u /\ resetToken u' = Some token.
Proof.
  intros Hok He Hf Hmail token t.
  destruct (forgotPassword_found L req w u Hok He Hf) as (l1 & l2 & Hus & E).
  subst t. rewrite E. rewrite Hmail. cbn.
  split; [reflexivity|]. split; [reflexivity|]. split.
  - intros e [<-|[<-|[]]]; split; intros; discriminate.
  - destruct (forgot_stored_fields L w u)
      as (Hid & _ & _ & _ & _ & _ & _ & Ht & _).
    exists (forgot_stored L w u). split; [|split; assumption].
    apply in_or_app. right. now left.
Qed.

(** ** Resetting the password *)

(** C10 (amended): on a successful resetPassword the matched document keeps
    its [_id], [name], [email], [role], [balance] and [createdAt]; besides
    [password], [resetToken] and [resetTokenExpiration], the one field that
    moves is [updatedAt], which the store sets to the time of the save.
    The documents around it are untouched. *)
Theorem resetPassword_frame (L : Libs) (req : Request) (w : World) (u : User) :
  hash_nonempty L ->
  store_ok (users w) ->
  truthy (get "password" (body req)) = true ->
  find (reset_filter (params_token req) (clock w)) (users w) = Some u ->
  exists l1 l2 u',
    users w = l1 ++ u :: l2 /\
    users (fst (run (resetPassword L req) w)) = l1 ++ u' :: l2 /\
    response (snd (run (resetPassword L req) w)) =
      Some (200, "Password reset successful.", NoData) /\
    _id u' = _id u /\ name u' = name u /\ email u' = email u /\
    role u' = role u /\ balance u' = balance u /\
    createdAt u' = createdAt u /\
    updatedAt u' = clock w.
Proof.
  intros Hne Hok Hp Hf.
  destruct (resetPassword_found L req w u Hne Hok Hp Hf)
    as (l1 & l2 & Hus & E).
  exists l1, l2, (reset_doc L req w u). rewrite E. cbn.
  repeat split; auto.
Qed.

(** ** Who writes the password field *)

Lemma register_users (L : Libs) (req : Request) (w : World) :
  users (fst (run (register L req) w)) = users w \/
  exists d,
    users (fst (run (register L req) w)) = users w ++ [d] /\
    password d =
      bcrypt_hash L (entropy w) (str (get "password" (body req))) 10.
Proof.
  unfold register. unfold_handler.
  destruct (truthy (get "name" (body req))),
           (truthy (get "email" (body req))),
           (truthy (get "password" (body req)));
    cbn; try (left; reflexivity).
  destruct (find _ (users w)); cbn; [left; reflexivity|].
  unfold save_new. cbn.
  destruct (validate _); cbn; [left; reflexivity|].
  destruct (existsb _ (users w)); cbn; [left; reflexivity|].
  right. eexists. split; reflexivity.
Qed.

Lemma resetPassword_users (L : Libs) (req : Request) (w : World) :
  users (fst (run (resetPassword L req) w)) = users w \/
  exists doc,
    users (fst (run (resetPassword L req) w)) =
      updateOne doc (clock w) (users w) /\
    password doc =
      bcrypt_hash L (entropy w) (str (get "password" (body req))) 10.
Proof.
  unfold resetPassword. unfold_handler.
  destruct (truthy (get "password" (body req))); cbn;
    [|left; reflexivity].
  destruct (find _ (users w)); cbn; [|left; reflexivity].
  unfold save. cbn.
  destruct (validate _); cbn; [left; reflexivity|].
  right. eexists. split; reflexivity.
Qed.

Lemma forgotPassword_users (L : Libs) (req : Request) (w : World) :
  users (fst (run (forgotPassword L req) w)) = users w \/
  exists u,
    In u (users w) /\
    users (fst (run (forgotPassword L req) w)) =
      updateOne (forgot_doc L w u) (clock w) (users w).
Proof.
  unfold forgotPassword. unfold_handler.
  destruct (truthy (get "email" (body req))); cbn; [|left; reflexivity].
  destruct (find _ (users w)) as [u|] eqn:Hf; cbn; [|left; reflexivity].
  apply find_some in Hf. destruct Hf as [Hin _].
  unfold save. cbn.
  destruct (validate _); cbn; [left; reflexivity|].
  unfold await_emailService.
  right. exists u. split; [exact Hin|].
  destruct (emailService L _ _ _); reflexivity.
Qed.

Lemma login_world (L : Libs) (req : Request) (w : World) :
  fst (run (login L req) w) = w.
Proof.
  unfold login. unfold_handler.
  destruct (truthy (get "email" (body req))),
           (truthy (get "password" (body req)));
    cbn; try reflexivity.
  destruct (find _ (users w)); cbn; [|reflexivity].
  destruct (bcrypt_compare L _ _); cbn; [|reflexivity].
  destruct (String.eqb _ ""); reflexivity.
Qed.

(** ** Replacing a document *)

Lemma store_ok_replace (l1 l2 : list User) (u u' : User) :
  store_ok (l1 ++ u :: l2) ->
  _id u' = _id u -> validate u' = None ->
  store_ok (l1 ++ u' :: l2).
Proof.
  intros [Hnd Hv] Hid Hval. split.
  - rewrite map_app in *. simpl in *. rewrite Hid. exact Hnd.
  - rewrite Forall_forall in *. intros x Hx.
    apply in_app_or in Hx. destruct Hx as [Hx|[<-|Hx]]; auto.
    + apply Hv. apply in_or_app. now left.
    + apply Hv. apply in_or_app. right. now right.
Qed.

Lemma NoDup_ids_others (l1 l2 : list User) (u x : User) :
  NoDup (map _id (l1 ++ u :: l2)) ->
  In x (l1 ++ l2) -> _id x <> _id u.
Proof.
  intros Hnd Hx Heq.
  rewrite map_app in Hnd. simpl in Hnd.
  apply NoDup_remove_2 in Hnd. apply Hnd.
  rewrite <- map_app, <- Heq. apply in_map. exact Hx.
Qed.

(** ** The collection stays well-formed *)

Lemma updateOne_ids (doc : User) (now : Z) (us : list User) :
  map _id (updateOne doc now us) = map _id us.
Proof.
  induction us as [|a us IH]; simpl; [reflexivity|].
  destruct (_id a =? _id doc) eqn:E; simpl.
  - destruct (User_eq_dec a doc); simpl; [reflexivity|].
    apply Z.eqb_eq in E. now rewrite E.
  - now rewrite IH.
Qed.

Lemma world_ok_updateOne (w : World) (doc : User) (k : Z) (e : nat) :
  world_ok w -> validate doc = None -> nextId w <= k ->
  world_ok (mkWorld (updateOne doc (clock w) (users w)) (clock w) k e).
Proof.
  intros [[Hnd Hv] Hlt] Hval Hk. unfold world_ok, store_ok. cbn.
  rewrite updateOne_ids. split; [split; [exact Hnd|]|].
  - rewrite Forall_forall in *. intros x Hx.
    apply updateOne_In in Hx. destruct Hx as [Hx | ->]; [auto|].
    rewrite <- Hval. apply validate_fields; reflexivity.
  - rewrite Forall_forall in *. intros x Hx.
    apply (in_map _id) in Hx. rewrite updateOne_ids in Hx.
    apply in_map_iff in Hx. destruct Hx as (y & <- & Hy).
    specialize (Hlt y Hy). cbn in Hlt. lia.
Qed.

Lemma world_ok_same_users (w : World) (k : Z) (e : nat) :
  world_ok w -> nextId w <= k ->
  world_ok (mkWorld (users w) (clock w) k e).
Proof.
  intros [Hok Hlt] Hk. split; [exact Hok|]. cbn.
  rewrite Forall_forall in *. intros x Hx. specialize (Hlt x Hx). lia.
Qed.

Lemma world_ok_empty (t k : Z) (e : nat) : world_ok (mkWorld [] t k e).
Proof.
  repeat split; constructor.
Qed.

Lemma world_ok_at_time (t : Z) (w : World) :
  world_ok w -> world_ok (at_time t w).
Proof.
  intros H. exact H.
Qed.

Lemma world_ok_register (L : Libs) (req : Request) (w : World) :
  world_ok w -> world_ok (fst (run (register L req) w)).
Proof.
  intros Hw. unfold register. unfold_handler.
  destruct (truthy (get "name" (body req))),
           (truthy (get "email" (body req))),
           (truthy (get "password" (body req)));
    cbn; try exact Hw.
  destruct (find _ (users w)); cbn; [exact Hw|].
  unfold save_new. cbn.
  destruct (validate _) eqn:Hval; cbn;
    [apply (world_ok_same_users w); [exact Hw|cbn; lia]|].
  destruct (existsb _ (users w)); cbn;
    [apply (world_ok_same_users w); [exact Hw|cbn; lia]|].
  destruct Hw as [[Hnd Hv] Hlt].
  unfold world_ok, store_ok, with_users. cbn. repeat split.
  - rewrite map_app. cbn.
    apply NoDup_app; [exact Hnd | repeat constructor; intros [] |].
    intros x Hx [<-|[]].
    apply in_map_iff in Hx. destruct Hx as (y & Hy & Hin).
    rewrite Forall_forall in Hlt. specialize (Hlt y Hin). cbn in Hlt. lia.
  - apply Forall_app. split; [exact Hv|]. constructor; [|constructor].
    rewrite <- Hval. apply validate_fields; reflexivity.
  - apply Forall_app. split.
    + rewrite Forall_forall in *. intros x Hx. specialize (Hlt x Hx). lia.
    + constructor; [cbn; lia|constructor].
Qed.

Lemma world_ok_forgotPassword (L : Libs) (req : Request) (w : World) :
  world_ok w -> world_ok (fst (run (forgotPassword L req) w)).
Proof.
  intros Hw. unfold forgotPassword. unfold_handler.
  destruct (truthy (get "email" (body req))); cbn; [|exact Hw].
  destruct (find _ (users w)) as [u|]; cbn; [|exact Hw].
  unfold save. cbn.
  destruct (validate _) eqn:Hval; cbn; [exact Hw|].
  unfold await_emailService.
  destruct (emailService L _ _ _); cbn;
    apply (world_ok_updateOne w); auto; cbn; lia.
Qed.

Lemma world_ok_resetPassword (L : Libs) (req : Request) (w : World) :
  world_ok w -> world_ok (fst (run (resetPassword L req) w)).
Proof.
  intros Hw. unfold resetPassword. unfold_handler.
  destruct (truthy (get "password" (body req))); cbn; [|exact Hw].
  destruct (find _ (users w)) as [u|]; cbn; [|exact Hw].
  unfold save. cbn.
  destruct (validate _) eqn:Hval; cbn.
  - apply (world_ok_same_users w); [exact Hw|cbn; lia].
  - apply (world_ok_updateOne w); auto; cbn; lia.
Qed.

Lemma world_ok_login (L : Libs) (req : Request) (w : World) :
  world_ok w -> world_ok (fst (run (login L req) w)).
Proof.
  intros Hw. now rewrite login_world.
Qed.

(** ** Stored passwords *)

Lemma passwords_hashed_step (L : Libs) (c : Call) (req : Request) (w : World) :
  passwords_hashed L (users w) ->
  passwords_hashed L (users (fst (run (handle L c req) w))).
Proof.
  intros H u Hin. destruct c; cbn [handle] in Hin.
  - destruct (register_users L req w) as [E|(d & E & Hd)];
      rewrite E in Hin; [auto|].
    apply in_app_or in Hin. destruct Hin as [Hin|[<-|[]]]; [auto|eauto].
  - rewrite login_world in Hin. auto.
  - destruct (forgotPassword_users L req w) as [E|(u0 & Hu0 & E)];
      rewrite E in Hin; [auto|].
    apply updateOne_In in Hin. destruct Hin as [Hin | ->]; [auto|].
    exact (H u0 Hu0).
  - destruct (resetPassword_users L req w) as [E|(doc & E & Hd)];
      rewrite E in Hin; [auto|].
    apply updateOne_In in Hin. destruct Hin as [Hin | ->]; [auto|].
    cbn. eauto.
Qed.

Lemma world_ok_step (L : Libs) (c : Call) (req : Request) (w : World) :
  world_ok w -> world_ok (fst (run (handle L c req) w)).
Proof.
  destruct c; cbn [handle].
  - apply world_ok_register.
  - apply world_ok_login.
  - apply world_ok_forgotPassword.
  - apply world_ok_resetPassword.
Qed.

Lemma reachable_world_ok (L : Libs) (w : World) :
  reachable L w -> world_ok w.
Proof.
  induction 1 as [t k e|w c req t _ IH].
  - apply world_ok_empty.
  - apply world_ok_step. apply world_ok_at_time. exact IH.
Qed.

Lemma reachable_passwords_hashed (L : Libs) (w : World) :
  reachable L w -> passwords_hashed L (users w).
Proof.
  induction 1 as [t k e|w c req t _ IH].
  - intros u [].
  - apply passwords_hashed_step. exact IH.
Qed.

(** C1: a user record written by register or by resetPassword carries, in
    its password field, the bcrypt hash (cost 10) of the password submitted
    in that request, and bcrypt's hash never being its own input, not that
    password itself.  No other handler writes the field: after
    forgotPassword every stored password is one that was stored before, and
    login leaves the world as it is.  So in every world reached from the
    empty collection each stored password is a cost-10 hash of some
    plaintext, and differs from it. *)
Theorem stored_password_is_hash_of_submitted (L : Libs) (req : Request)
  (w : World) :
  hash_hides L ->
  let plaintext := str (get "password" (body req)) in
  let hashed := bcrypt_hash L (entropy w) plaintext 10 in
  (forall u, In u (users (fst (run (register L req) w))) ->
             ~ In u (users w) ->
             password u = hashed /\ password u <> plaintext)
  /\ (forall u, In u (users (fst (run (resetPassword L req) w))) ->
                ~ In u (users w) ->
                password u = hashed /\ password u <> plaintext)
  /\ (forall u, In u (users (fst (run (forgotPassword L req) w))) ->
                exists v, In v (users w) /\ password u = password v)
  /\ fst (run (login L req) w) = w
  /\ (reachable L w ->
      forall u, In u (users w) ->
                exists seed p, password u = bcrypt_hash L seed p 10 /\
                               password u <> p).
Proof.
  intros Hh plaintext hashed.
  assert (Hne : hashed <> plaintext) by apply Hh.
  split; [|split; [|split; [|split]]].
  - intros u Hin Hnew.
    destruct (register_users L req w) as [E|(d & E & Hd)];
      rewrite E in Hin; [contradiction|].
    apply in_app_or in Hin. destruct Hin as [Hin|[<-|[]]]; [contradiction|].
    fold plaintext in Hd. fold hashed in Hd. rewrite Hd. auto.
  - intros u Hin Hnew.
    destruct (resetPassword_users L req w) as [E|(doc & E & Hd)];
      rewrite E in Hin; [contradiction|].
    apply updateOne_In in Hin. destruct Hin as [Hin | ->]; [contradiction|].
    fold plaintext in Hd. fold hashed in Hd. cbn. rewrite Hd. auto.
  - intros u Hin.
    destruct (forgotPassword_users L req w) as [E|(u0 & Hu0 & E)];
      rewrite E in Hin; [eauto|].
    apply updateOne_In in Hin. destruct Hin as [Hin | ->]; [eauto|].
    exists u0. split; [exact Hu0|reflexivity].
  - apply login_world.
  - intros Hr u Hin.
    destruct (reachable_passwords_hashed L w Hr u Hin) as (seed & p & E).
    exists seed, p. split; [exact E|]. rewrite E. apply Hh.
Qed.

(** ** Registration of a new email *)

Lemma register_new_email (L : Libs) (req : Request) (w : World) :
  hash_nonempty L ->
  truthy (get "name" (body req)) = true ->
  truthy (get "email" (body req)) = true ->
  truthy (get "password" (body req)) = true ->
  match get "role" (body req) with
  | Some r => in_enum r = true
  | None => True
  end ->
  (forall u, In u (users w) -> email u <> str (get "email" (body req))) ->
  let d := mkUser (nextId w) (str (get "name" (body req)))
                  (str (get "email" (body req)))
                  (bcrypt_hash L (entropy w)
                               (str (get "password" (body req))) 10)
                  (match get "role" (body req) with
                   | Some r => r
                   | None => "user"
                   end)
                  0 None None (clock w) (clock w) in
  run (register L req) w =
    (mkWorld (users w ++ [d]) (clock w) (nextId w + 1) (S (entropy w)),
     [bcrypt_hash_called (str (get "password" (body req))) 10;
      res_json 201 "New user created." (DataUser d)]).
Proof.
  intros Hne Hn He Hp Hr Hfresh d.
  assert (Hf : find (fun x => String.eqb (email x)
                                 (str (get "email" (body req))))
                    (users w) = None).
  { apply find_all_false. intros u Hin. apply String.eqb_neq. auto. }
  assert (Hex : existsb (fun x => String.eqb (email x)
                                    (str (get "email" (body req))))
                        (users w) = false).
  { destruct (existsb _ (users w)) eqn:E; [|reflexivity].
    apply existsb_exists in E. destruct E as (x & Hx & Hxe).
    apply String.eqb_eq in Hxe. exfalso. exact (Hfresh x Hx Hxe). }
  destruct (truthy_str _ Hn) as [_ Hn'].
  destruct (truthy_str _ He) as [_ He'].
  assert (Hvalid :
    validate (mkUser (nextId w) (str (get "name" (body req)))
                (str (get "email" (body req)))
                (bcrypt_hash L (entropy w)
                             (str (get "password" (body req))) 10)
                (match get "role" (body req) with
                 | Some r => r
                 | None => "user"
                 end)
                0 None None 0 0) = None).
  { unfold validate. cbn -[in_enum].
    apply String.eqb_neq in Hn', He'. rewrite Hn', He'.
    pose proof (Hne (entropy w) (str (get "password" (body req))) 10) as Hh.
    apply String.eqb_neq in Hh. rewrite Hh.
    assert (Hrole : in_enum (match get "role" (body req) with
                             | Some r => r
                             | None => "user"
                             end) = true).
    { destruct (get "role" (body req)); [exact Hr|reflexivity]. }
    rewrite Hrole. reflexivity. }
  unfold register. unfold_handler. rewrite Hn, He, Hp. cbn. rewrite Hf.
  cbn -[validate]. unfold save_new. rewrite Hvalid. cbn. rewrite Hex.
  reflexivity.
Qed.

(** * The handlers on the sample history *)

Example sample_w1_reached :
  fst (run (register Sample.libs Sample.alice_register)
           (at_time 1000 Sample.empty)) = Sample.w1.
Proof. reflexivity. Qed.

Example sample_w2_reached :
  fst (run (forgotPassword Sample.libs Sample.alice_forgot)
           (at_time 2000 Sample.w1)) = Sample.w2.
Proof. reflexivity. Qed.

Example sample_login_ok :
  response (snd (run (login Sample.libs
                        (Sample.post [("email", "a@x.com"); ("password", "P1")]))
                     Sample.w2)) =
  Some (200, "Login successful.", DataToken "jwt.id=1,role=user.1h.2.s3cret").
Proof. reflexivity. Qed.

Example sample_login_wrong_password :
  response (snd (run (login Sample.libs
                        (Sample.post [("email", "a@x.com"); ("password", "nope")]))
                     Sample.w2)) =
  Some (400, "Password incorrect. Please try again", NoData).
Proof. reflexivity. Qed.

Example sample_w2_reachable : reachable Sample.libs Sample.w2.
Proof.
  change Sample.w2
    with (fst (run (handle Sample.libs ForgotPassword Sample.alice_forgot)
                   (at_time 2000
                      (fst (run (handle Sample.libs Register
                                        Sample.alice_register)
                                (at_time 1000 Sample.empty)))))).
  do 2 apply reachable_request. apply reachable_empty.
Qed.

Example sample_register_bob :
  run (register Sample.libs
         (Sample.post [("name", "Bob"); ("email", "b@x.com");
                       ("password", "P2"); ("role", "admin")]))
      (at_time 3000 Sample.w2) =
    (mkWorld [Sample.alice2;
              mkUser 2 "Bob" "b@x.com" "$b$P2" "admin" 0 None None 3000 3000]
             3000 3 2%nat,
     [bcrypt_hash_called "P2" 10;
      res_json 201 "New user created."
               (DataUser (mkUser 2 "Bob" "b@x.com" "$b$P2" "admin" 0
                                 None None 3000 3000))]).
Proof. reflexivity. Qed.

Example sample_register_bad_role :
  run (register Sample.libs
         (Sample.post [("name", "Bob"); ("email", "b@x.com");
                       ("password", "P2"); ("role", "root")]))
      (at_time 3000 Sample.w2) =
    (mkWorld [Sample.alice2] 3000 3 2%nat,
     [bcrypt_hash_called "P2" 10;
      next (Some (mkCustomError
        "users validation failed: role: `root` is not a valid enum value for path `role`."
        500))]).
Proof. reflexivity. Qed.

Lemma sample_hash_nonempty : hash_nonempty Sample.libs.
Proof.
  intros seed data rounds. discriminate.
Qed.

Lemma sample_hash_hides : hash_hides Sample.libs.
Proof.
  intros seed data rounds H.
  apply (f_equal String.length) in H. cbn in H. lia.
Qed.

Lemma sample_compare_accepts : compare_accepts Sample.libs.
Proof.
  intros seed data rounds. cbn. apply String.eqb_refl.
Qed.

Lemma sample_store_ok_w1 : store_ok (users Sample.w1).
Proof.
  split; repeat constructor. intros [].
Qed.

Lemma sample_store_ok_w2 : store_ok (users Sample.w2).
Proof.
  split; repeat constructor. intros [].
Qed.

(** ** The theorems at the sample history *)

Lemma register_existing_email_witness :
  run (register Sample.libs
         (Sample.post [("name", "Bob"); ("email", "a@x.com");
                       ("password", "P2"); ("role", "admin")]))
      Sample.w1 =
    (Sample.w1,
     [next (Some (mkCustomError
                    "User already registered. Please use login for process."
                    400))])
  /\ response
       (snd (run (register Sample.libs
                    (Sample.post [("name", "Bob"); ("email", "a@x.com");
                                  ("password", "P2"); ("role", "admin")]))
                 Sample.w1)) =
     Some (400, "User already registered. Please use login for process.",
           NoData).
Proof.
  apply (register_existing_email_rejected Sample.libs _ Sample.w1 Sample.alice1);
    [reflexivity | reflexivity | reflexivity | now left | reflexivity].
Defined.

Lemma resetPassword_bad_token_witness :
  run (resetPassword Sample.libs
         (Sample.post_token Sample.token1 [("password", "P2")]))
      (at_time 18002000 Sample.w2) =
    (at_time 18002000 Sample.w2,
     [next (Some (mkCustomError "Password reset token expired or invalid."
                                404))])
  /\ response
       (snd (run (resetPassword Sample.libs
                    (Sample.post_token Sample.token1 [("password", "P2")]))
                 (at_time 18002000 Sample.w2))) =
     Some (404, "Password reset token expired or invalid.", NoData).
Proof.
  apply (resetPassword_bad_token_rejected Sample.libs
           (Sample.post_token Sample.token1 [("password", "P2")])
           (at_time 18002000 Sample.w2)).
  - reflexivity.
  - intros u e [<-|[]] _ He. cbn in He. injection He as <-. cbn. lia.
Defined.

Lemma login_unknown_email_witness :
  run (login Sample.libs
         (Sample.post [("email", "nobody@x.com"); ("password", "P1")]))
      Sample.w1 =
    (Sample.w1,
     [next (Some (mkCustomError
        "User not registered. Please create account using register and login again."
        400));
      next (Some (mkCustomError
        "Cannot read properties of null (reading 'password')" 500))])
  /\ response
       (snd (run (login Sample.libs
                    (Sample.post [("email", "nobody@x.com");
                                  ("password", "P1")]))
                 Sample.w1)) =
     Some (400,
           "User not registered. Please create account using register and login again.",
           NoData)
  /\ (forall data hash,
        ~ In (bcrypt_compare_called data hash)
             (snd (run (login Sample.libs
                          (Sample.post [("email", "nobody@x.com");
                                        ("password", "P1")]))
                       Sample.w1))).
Proof.
  apply (login_unknown_email_rejected Sample.libs
           (Sample.post [("email", "nobody@x.com"); ("password", "P1")])
           Sample.w1).
  - reflexivity.
  - reflexivity.
  - intros u [<-|[]]. discriminate.
Defined.

Lemma admin_routes_refuse_witness :
  dispatch [Sample.as_user; guard ["admin"]; Sample.wipe]
           (Sample.post []) Sample.w1 =
    (Sample.w1, [next None; next (Some unauthorized)])
  /\ response [next (Some unauthorized)] =
       Some (401,
             "You are unauthorized for this action. Please contact system administration.",
             NoData).
Proof.
  apply (admin_routes_refuse_other_roles
           Sample.as_user Sample.wipe Sample.wipe Sample.wipe Sample.wipe
           (mkRoute DELETE "/user/:id"
                    [Sample.as_user; guard ["admin"]; Sample.wipe])
           (Sample.post [])
           (mkRequest [] "" "localhost" (Some (mkClaims 7 (Some "user"))))
           Sample.w1 Sample.w1 [next None]).
  - right. right. right. left. reflexivity.
  - right. split; reflexivity.
  - reflexivity.
  - reflexivity.
  - reflexivity.
Defined.

Lemma forgotPassword_sets_token_witness :
  exists l1 l2 u',
    users (at_time 2000 Sample.w1) = l1 ++ Sample.alice1 :: l2 /\
    users (fst (run (forgotPassword Sample.libs Sample.alice_forgot)
                    (at_time 2000 Sample.w1))) = l1 ++ u' :: l2 /\
    _id u' = 1 /\
    resetToken u' = Some Sample.token1 /\
    resetTokenExpiration u' = Some (2000 + 18000000) /\
    18000000 = 5 * 60 * 60 * 1000 /\
    In (jwt_sign_called (EmailClaim "a@x.com") "30m")
       (snd (run (forgotPassword Sample.libs Sample.alice_forgot)
                 (at_time 2000 Sample.w1))) /\
    ms "30m" = Some (30 * 60 * 1000).
Proof.
  exact (forgotPassword_sets_token_and_expiration
           Sample.libs Sample.alice_forgot (at_time 2000 Sample.w1)
           Sample.alice1 sample_store_ok_w1 eq_refl eq_refl).
Defined.

Lemma forgotPassword_success_witness :
  snd (run (forgotPassword Sample.libs Sample.alice_forgot)
           (at_time 2000 Sample.w1)) =
    [jwt_sign_called (EmailClaim "a@x.com") "30m";
     emailService_called "a@x.com" "Password reset for Financial Tracker"
                         (ResetMail "localhost" Sample.token1)]
  /\ response (snd (run (forgotPassword Sample.libs Sample.alice_forgot)
                        (at_time 2000 Sample.w1))) = None
  /\ (forall e,
        In e (snd (run (forgotPassword Sample.libs Sample.alice_forgot)
                       (at_time 2000 Sample.w1))) ->
        (forall err, e <> next err) /\
        (forall s m d, e <> res_json s m d))
  /\ exists u',
       In u' (users (fst (run (forgotPassword Sample.libs Sample.alice_forgot)
                              (at_time 2000 Sample.w1)))) /\
       _id u' = 1 /\ resetToken u' = Some Sample.token1.
Proof.
  exact (forgotPassword_success_no_response
           Sample.libs Sample.alice_forgot (at_time 2000 Sample.w1)
           Sample.alice1 sample_store_ok_w1 eq_refl eq_refl eq_refl).
Defined.

Lemma resetPassword_frame_witness :
  exists l1 l2 u',
    users (at_time 5000 Sample.w2) = l1 ++ Sample.alice2 :: l2 /\
    users (fst (run (resetPassword Sample.libs
                       (Sample.post_token Sample.token1 [("password", "P2")]))
                    (at_time 5000 Sample.w2))) = l1 ++ u' :: l2 /\
    response (snd (run (resetPassword Sample.libs
                          (Sample.post_token Sample.token1
                                             [("password", "P2")]))
                       (at_time 5000 Sample.w2))) =
      Some (200, "Password reset successful.", NoData) /\
    _id u' = 1 /\ name u' = "Alice" /\ email u' = "a@x.com" /\
    role u' = "user" /\ balance u' = 0 /\
    createdAt u' = 1000 /\
    updatedAt u' = 5000.
Proof.
  exact (resetPassword_frame
           Sample.libs
           (Sample.post_token Sample.token1 [("password", "P2")])
           (at_time 5000 Sample.w2) Sample.alice2
           sample_hash_nonempty sample_store_ok_w2 eq_refl eq_refl).
Defined.

Lemma stored_password_witness :
  let req := mkRequest [("name", "Bob"); ("email", "b@x.com");
                        ("password", "P2")]
                       Sample.token1 "localhost" None in
  let w := at_time 5000 Sample.w2 in
  (forall u, In u (users (fst (run (register Sample.libs req) w))) ->
             ~ In u (users w) ->
             password u = "$b$P2" /\ password u <> "P2")
  /\ (forall u, In u (users (fst (run (resetPassword Sample.libs req) w))) ->
                ~ In u (users w) ->
                password u = "$b$P2" /\ password u <> "P2")
  /\ (forall u, In u (users (fst (run (forgotPassword Sample.libs req) w))) ->
                exists v, In v (users w) /\ password u = password v)
  /\ fst (run (login Sample.libs req) w) = w
  /\ (reachable Sample.libs w ->
      forall u, In u (users w) ->
                exists seed p, password u = Sample.hash seed p 10 /\
                               password u <> p).
Proof.
  exact (stored_password_is_hash_of_submitted
           Sample.libs
           (mkRequest [("name", "Bob"); ("email", "b@x.com");
                       ("password", "P2")]
                      Sample.token1 "localhost" None)
           (at_time 5000 Sample.w2)
           sample_hash_hides).
Defined.

(** ** Where the claims as written fail *)

(** C2, as written, fails when the new password is the old one: Alice,
    whose password is "P1", resets it to "P1" with her valid token; the
    response is 200 and "P1", the old plaintext, still verifies against the
    stored hash. *)
Lemma reset_to_same_password_old_still_verifies :
  find (reset_filter Sample.token1 5000) (users Sample.w2)
    = Some Sample.alice2
  /\ Sample.compare "P1" (password Sample.alice2) = true
  /\ run (resetPassword Sample.libs
            (Sample.post_token Sample.token1 [("password", "P1")]))
         (at_time 5000 Sample.w2) =
       (mkWorld [Sample.alice3] 5000 2 2%nat,
        [bcrypt_hash_called "P1" 10;
         res_json 200 "Password reset successful." NoData])
  /\ Sample.compare "P1" (password Sample.alice3) = true.
Proof.
  repeat split.
Qed.

(** C3, as written, fails when the two requests fall in the same second:
    the token signed at 2500 ms is the token signed at 2000 ms, so the
    first token still selects Alice after the second request and the reset
    goes through. *)
Lemma first_token_survives_request_in_same_second :
  resetToken Sample.alice2 = Some Sample.token1
  /\ exists u2,
       users (fst (run (forgotPassword Sample.libs Sample.alice_forgot)
                       (at_time 2500 Sample.w2))) = [u2]
       /\ resetTokenExpiration u2 = Some (2500 + 18000000)
       /\ response
            (snd (run (resetPassword Sample.libs
                         (Sample.post_token Sample.token1
                                            [("password", "P2")]))
                      (at_time 3000
                         (fst (run (forgotPassword Sample.libs
                                      Sample.alice_forgot)
                                   (at_time 2500 Sample.w2)))))) =
          Some (200, "Password reset successful.", NoData).
Proof.
  split; [reflexivity|]. eexists. repeat split.
Qed.

(** C10, as written, fails on [updatedAt]: it is a field other than
    password, resetToken and resetTokenExpiration, and the successful reset
    of Alice's password at time 5000 moves it from 2000 to 5000. *)
Lemma reset_changes_updatedAt :
  find (reset_filter Sample.token1 5000) (users Sample.w2)
    = Some Sample.alice2
  /\ run (resetPassword Sample.libs
            (Sample.post_token Sample.token1 [("password", "P1")]))
         (at_time 5000 Sample.w2) =
       (mkWorld [Sample.alice3] 5000 2 2%nat,
        [bcrypt_hash_called "P1" 10;
         res_json 200 "Password reset successful." NoData])
  /\ ~ other_fields_equal Sample.alice2 Sample.alice3.
Proof.
  repeat split.
  intros (_ & _ & _ & _ & _ & _ & H). discriminate H.
Qed.

(** * Further properties of the handlers *)

(** ** Input guards *)

(** X1: each handler, when one of the body fields it requires is missing or
    empty, forwards its 400 error and returns: nothing is looked up, hashed,
    signed or stored, and the world is unchanged. *)
Theorem missing_input_rejected (L : Libs) (c : Call) (req : Request)
  (w : World) (k : string) :
  In k (required c) ->
  truthy (get k (body req)) = false ->
  run (handle L c req) w =
    (w, [next (Some (mkCustomError (missing_message c) 400))]).
Proof.
  intros Hin Hk.
  destruct c; cbn [required] in Hin; cbn [handle missing_message];
    repeat (destruct Hin as [<-|Hin]); try contradiction;
    unfold register, login, forgotPassword, resetPassword;
    unfold_handler; rewrite Hk;
    repeat match goal with
           | |- context [truthy ?x] => destruct (truthy x)
           end; reflexivity.
Qed.

(** ** Registration *)

(** X3: a registration with a fresh email but a role outside the schema's
    enum is refused by the save: the handler forwards the validation error
    with status 500 and the collection is unchanged (the password was
    hashed and an ObjectId drawn before the save failed). *)
Theorem register_invalid_role_rejected (L : Libs) (req : Request) (w : World)
  (r : string) :
  hash_nonempty L ->
  truthy (get "name" (body req)) = true ->
  truthy (get "email" (body req)) = true ->
  truthy (get "password" (body req)) = true ->
  (forall u, In u (users w) -> email u <> str (get "email" (body req))) ->
  get "role" (body req) = Some r ->
  in_enum r = false ->
  run (register L req) w =
    (mkWorld (users w) (clock w) (nextId w + 1) (S (entropy w)),
     [bcrypt_hash_called (str (get "password" (body req))) 10;
      next (Some (mkCustomError
                    ("users validation failed: role: `" ++ r
                     ++ "` is not a valid enum value for path `role`.")%string
                    500))]).
Proof.
  intros Hne Hn He Hp Hfresh Hr Henum.
  assert (Hf : find (fun x => String.eqb (email x)
                                 (str (get "email" (body req))))
                    (users w) = None).
  { apply find_all_false. intros u Hin. apply String.eqb_neq. auto. }
  destruct (truthy_str _ Hn) as [_ Hn'].
  destruct (truthy_str _ He) as [_ He'].
  assert (Hinvalid :
    validate (mkUser (nextId w) (str (get "name" (body req)))
                (str (get "email" (body req)))
                (bcrypt_hash L (entropy w)
                             (str (get "password" (body req))) 10)
                r 0 None None 0 0)
    = Some ("users validation failed: role: `" ++ r
            ++ "` is not a valid enum value for path `role`.")%string).
  { unfold validate. cbn -[in_enum].
    apply String.eqb_neq in Hn', He'. rewrite Hn', He'.
    pose proof (Hne (entropy w) (str (get "password" (body req))) 10) as Hh.
    apply String.eqb_neq in Hh. rewrite Hh, Henum. reflexivity. }
  unfold register. unfold_handler. rewrite Hn, He, Hp. cbn. rewrite Hf.
  rewrite Hr. cbn -[validate]. unfold save_new. rewrite Hinvalid.
  reflexivity.
Qed.

(** ** Login *)

(** X4: login with the email of a stored user and a password bcrypt.compare
    rejects forwards the 400 error "Password incorrect. Please try again"
    and returns: no token is signed, no cookie set, the world is
    unchanged. *)
Theorem login_wrong_password_rejected (L : Libs) (req : Request) (w : World)
  (u : User) :
  truthy (get "email" (body req)) = true ->
  truthy (get "password" (body req)) = true ->
  find (fun x => String.eqb (email x) (str (get "email" (body req))))
       (users w) = Some u ->
  bcrypt_compare L (str (get "password" (body req))) (password u) = false ->
  run (login L req) w =
    (w, [bcrypt_compare_called (str (get "password" (body req))) (password u);
         next (Some (mkCustomError "Password incorrect. Please try again"
                                   400))]).
Proof.
  intros He Hp Hf Hc. unfold login. unfold_handler. rewrite He, Hp. cbn.
  rewrite Hf. cbn. unfold await_bcrypt_compare. rewrite Hc. reflexivity.
Qed.

(** X5: login with the email of a stored user and a password bcrypt.compare
    accepts signs a token over that user's [_id] and [role] with
    [expiresIn: "1h"], sets it as the http-only cookie [authToken] with
    [maxAge] 3 600 000 ms, the same hour, and answers 200 with the same
    token in the body; the world is unchanged. *)
Theorem login_success (L : Libs) (req : Request) (w : World) (u : User) :
  truthy (get "email" (body req)) = true ->
  truthy (get "password" (body req)) = true ->
  find (fun x => String.eqb (email x) (str (get "email" (body req))))
       (users w) = Some u ->
  bcrypt_compare L (str (get "password" (body req))) (password u) = true ->
  let token := jwt_sign L (IdRole (_id u) (role u)) (JWT_SECRET L) "1h"
                        (clock w / 1000) in
  token <> "" ->
  run (login L req) w =
    (w, [bcrypt_compare_called (str (get "password" (body req))) (password u);
         jwt_sign_called (IdRole (_id u) (role u)) "1h";
         res_cookie "authToken" token true 3600000;
         res_json 200 "Login successful." (DataToken token);
         console_log (role u ++ " logged.")%string])
  /\ ms "1h" = Some 3600000.
Proof.
  intros He Hp Hf Hc token Ht. split; [|reflexivity].
  unfold login. unfold_handler. rewrite He, Hp. cbn.
  rewrite Hf. cbn. unfold await_bcrypt_compare. rewrite Hc. cbn.
  fold token. apply String.eqb_neq in Ht. rewrite Ht. reflexivity.
Qed.

(** ** Forgot password *)

(** X6: forgotPassword for an email no stored user has forwards the 404
    error "User not found." and returns: no token is signed, no mail sent,
    the world is unchanged. *)
Theorem forgotPassword_unknown_email_rejected (L : Libs) (req : Request)
  (w : World) :
  truthy (get "email" (body req)) = true ->
  (forall u, In u (users w) -> email u <> str (get "email" (body req))) ->
  run (forgotPassword L req) w =
    (w, [next (Some (mkCustomError "User not found." 404))]).
Proof.
  intros He Hno.
  assert (Hf : find (fun x => String.eqb (email x)
                                 (str (get "email" (body req))))
                    (users w) = None).
  { apply find_all_false. intros u Hin. apply String.eqb_neq. auto. }
  unfold forgotPassword. unfold_handler. rewrite He. cbn. rewrite Hf.
  reflexivity.
Qed.

(** X7: when the mail service rejects, forgotPassword answers through the
    500 error carrying the service's message, but the reset token and its
    expiration were saved before the mail was attempted and stay on the
    user's document: the failure is not rolled back. *)
Theorem forgotPassword_mail_failure_keeps_token (L : Libs) (req : Request)
  (w : World) (u : User) (msg : string) :
  store_ok (users w) ->
  truthy (get "email" (body req)) = true ->
  find (fun x => String.eqb (email x) (str (get "email" (body req))))
       (users w) = Some u ->
  let token := jwt_sign L (EmailClaim (email u)) (JWT_SECRET L) "30m"
                        (clock w / 1000) in
  emailService L (email u) "Password reset for Financial Tracker"
               (ResetMail (headers_host req) token) = Some msg ->
  snd (run (forgotPassword L req) w) =
    [jwt_sign_called (EmailClaim (email u)) "30m";
     emailService_called (email u) "Password reset for Financial Tracker"
                         (ResetMail (headers_host req) token);
     next (Some (mkCustomError msg 500))]
  /\ exists l1 l2 u',
       users w = l1 ++ u :: l2 /\
       users (fst (run (forgotPassword L req) w)) = l1 ++ u' :: l2 /\
       _id u' = _id u /\
       resetToken u' = Some token /\
       resetTokenExpiration u' = Some (clock w + 18000000).
Proof.
  intros Hok He Hf token Hmail.
  destruct (forgotPassword_found L req w u Hok He Hf) as (l1 & l2 & Hus & E).
  rewrite E. fold token. rewrite Hmail. split; [reflexivity|].
  destruct (forgot_stored_fields L w u)
    as (Hid & _ & _ & _ & _ & _ & _ & Ht & Hx).
  exists l1, l2, (forgot_stored L w u). cbn. repeat split; auto.
Qed.

(** ** Every path of a handler *)

Lemma register_paths (L : Libs) (req : Request) (w : World) :
  let w' := fst (run (register L req) w) in
  let t := snd (run (register L req) w) in
  (users w' = users w /\
   exists c m, response t = Some (c, m, NoData) /\ (c = 400 \/ c = 500))
  \/ exists d,
       users w' = users w ++ [d] /\
       response t = Some (201, "New user created.", DataUser d) /\
       find (fun x => String.eqb (email x) (str (get "email" (body req))))
            (users w) = None /\
       validate d = None /\
       _id d = nextId w /\
       email d = str (get "email" (body req)) /\
       password d =
         bcrypt_hash L (entropy w) (str (get "password" (body req))) 10 /\
       balance d = 0 /\
       resetToken d = None /\ resetTokenExpiration d = None.
Proof.
  unfold register. unfold_handler.
  destruct (truthy (get "name" (body req))),
           (truthy (get "email" (body req))),
           (truthy (get "password" (body req)));
    cbn; try (left; split; [reflexivity|]; do 2 eexists;
              split; [reflexivity|]; now left).
  destruct (find _ (users w)) eqn:Hf; cbn.
  { left. split; [reflexivity|]. do 2 eexists. split; [reflexivity|].
    now left. }
  unfold save_new. cbn -[validate].
  destruct (validate _) eqn:Hval; cbn -[validate].
  { left. split; [reflexivity|]. do 2 eexists. split; [reflexivity|].
    now right. }
  destruct (existsb _ (users w)); cbn -[validate].
  { left. split; [reflexivity|]. do 2 eexists. split; [reflexivity|].
    now right. }
  right. eexists. split; [reflexivity|]. split; [reflexivity|].
  split; [reflexivity|]. split; [|repeat split].
  rewrite <- Hval. apply validate_fields; reflexivity.
Qed.

Lemma resetPassword_paths (L : Libs) (req : Request) (w : World) :
  let w' := fst (run (resetPassword L req) w) in
  let t := snd (run (resetPassword L req) w) in
  (users w' = users w /\
   exists c m, response t = Some (c, m, NoData) /\
               (c = 400 \/ c = 404 \/ c = 500))
  \/ exists u,
       find (reset_filter (params_token req) (clock w)) (users w) = Some u /\
       validate (reset_doc L req w u) = None /\
       users w' =
         updateOne (set_resetTokenExpiration
                      (set_resetToken
                         (set_password u
                            (bcrypt_hash L (entropy w)
                               (str (get "password" (body req))) 10))
                         None)
                      None)
                   (clock w) (users w) /\
       response t = Some (200, "Password reset successful.", NoData).
Proof.
  unfold resetPassword. unfold_handler.
  destruct (truthy (get "password" (body req))); cbn;
    [|left; split; [reflexivity|]; do 2 eexists; split; [reflexivity|];
      now left].
  destruct (find _ (users w)) as [u|] eqn:Hf; cbn;
    [|left; split; [reflexivity|]; do 2 eexists; split; [reflexivity|];
      right; now left].
  unfold save. cbn -[validate].
  destruct (validate _) eqn:Hval; cbn -[validate].
  { left. split; [reflexivity|]. do 2 eexists. split; [reflexivity|].
    right. now right. }
  right. exists u. split; [reflexivity|]. split; [|split; reflexivity].
  rewrite <- Hval. apply validate_fields; reflexivity.
Qed.

Lemma forgotPassword_paths (L : Libs) (req : Request) (w : World) :
  let w' := fst (run (forgotPassword L req) w) in
  let t := snd (run (forgotPassword L req) w) in
  (users w' = users w /\
   exists c m, response t = Some (c, m, NoData) /\
               (c = 400 \/ c = 404 \/ c = 500))
  \/ exists u,
       find (fun x => String.eqb (email x) (str (get "email" (body req))))
            (users w) = Some u /\
       validate (forgot_doc L w u) = None /\
       users w' = updateOne (forgot_doc L w u) (clock w) (users w) /\
       (response t = None \/ exists m, response t = Some (500, m, NoData)).
Proof.
  unfold forgotPassword. unfold_handler.
  destruct (truthy (get "email" (body req))); cbn;
    [|left; split; [reflexivity|]; do 2 eexists; split; [reflexivity|];
      now left].
  destruct (find _ (users w)) as [u|] eqn:Hf; cbn;
    [|left; split; [reflexivity|]; do 2 eexists; split; [reflexivity|];
      right; now left].
  unfold save. cbn -[validate].
  destruct (validate _) eqn:Hval; cbn -[validate].
  { left. split; [reflexivity|]. do 2 eexists. split; [reflexivity|].
    right. now right. }
  right. exists u. split; [reflexivity|]. split; [exact Hval|].
  unfold await_emailService.
  destruct (emailService L _ _ _); cbn.
  - split; [reflexivity|]. right. eexists. reflexivity.
  - split; [reflexivity|]. now left.
Qed.

(** ** All or nothing *)

(** X8: register either answers 201 with the document it appended to the
    collection, whose password field, sent back in the response, is the
    hash of the submitted password, or answers through a 400 or 500 error
    and leaves the collection as it was. *)
Theorem register_all_or_nothing (L : Libs) (req : Request) (w : World) :
  let w' := fst (run (register L req) w) in
  let t := snd (run (register L req) w) in
  (users w' = users w /\
   exists c m, response t = Some (c, m, NoData) /\ (c = 400 \/ c = 500))
  \/ exists d,
       users w' = users w ++ [d] /\
       response t = Some (201, "New user created.", DataUser d) /\
       password d =
         bcrypt_hash L (entropy w) (str (get "password" (body req))) 10.
Proof.
  destruct (register_paths L req w)
    as [H|(d & Hu & Hr & _ & _ & _ & _ & Hp & _)];
    [left; exact H|right; eauto].
Qed.

(** X9: resetPassword either answers 200, having found a user by the token,
    or answers through a 400, 404 or 500 error and leaves the collection as
    it was. *)
Theorem resetPassword_all_or_nothing (L : Libs) (req : Request) (w : World) :
  let w' := fst (run (resetPassword L req) w) in
  let t := snd (run (resetPassword L req) w) in
  (users w' = users w /\
   exists c m, response t = Some (c, m, NoData) /\
               (c = 400 \/ c = 404 \/ c = 500))
  \/ (response t = Some (200, "Password reset successful.", NoData) /\
      exists u,
        find (reset_filter (params_token req) (clock w)) (users w) = Some u).
Proof.
  destruct (resetPassword_paths L req w) as [H|(u & Hf & _ & _ & Hr)];
    [left; exact H|right; eauto].
Qed.

(** ** How often a handler answers *)

(** X10: register and resetPassword answer every request exactly once,
    through [next(err)] or [res.status().json()]; forgotPassword answers at
    most once; login answers at most twice, and twice exactly when email
    and password are given and no stored user has the email. *)
Theorem terminal_calls_per_request (L : Libs) (req : Request) (w : World) :
  terminal_calls (snd (run (register L req) w)) = 1%nat
  /\ terminal_calls (snd (run (resetPassword L req) w)) = 1%nat
  /\ (terminal_calls (snd (run (forgotPassword L req) w)) <= 1)%nat
  /\ (terminal_calls (snd (run (login L req) w)) <= 2)%nat
  /\ (terminal_calls (snd (run (login L req) w)) = 2%nat <->
      truthy (get "email" (body req)) = true /\
      truthy (get "password" (body req)) = true /\
      find (fun x => String.eqb (email x) (str (get "email" (body req))))
           (users w) = None).
Proof.
  split; [|split; [|split]].
  - unfold register. unfold_handler.
    destruct (truthy (get "name" (body req))),
             (truthy (get "email" (body req))),
             (truthy (get "password" (body req)));
      cbn; try reflexivity.
    destruct (find _ (users w)); cbn; [reflexivity|].
    unfold save_new. cbn -[validate].
    destruct (validate _); cbn; [reflexivity|].
    destruct (existsb _ (users w)); reflexivity.
  - unfold resetPassword. unfold_handler.
    destruct (truthy (get "password" (body req))); cbn; [|reflexivity].
    destruct (find _ (users w)); cbn; [|reflexivity].
    unfold save. cbn -[validate].
    destruct (validate _); reflexivity.
  - unfold forgotPassword. unfold_handler.
    destruct (truthy (get "email" (body req))); cbn; [|lia].
    destruct (find _ (users w)); cbn; [|lia].
    unfold save. cbn -[validate].
    destruct (validate _); cbn; [lia|].
    unfold await_emailService.
    destruct (emailService L _ _ _); cbn; lia.
  - unfold login. unfold_handler.
    destruct (truthy (get "email" (body req))),
             (truthy (get "password" (body req)));
      cbn; try (split; [lia|]; split; [discriminate|];
                intros (H1 & H2 & _); discriminate).
    destruct (find _ (users w)); cbn.
    + destruct (bcrypt_compare L _ _); cbn.
      * destruct (String.eqb _ ""); cbn;
          (split; [lia|]; split; [discriminate|];
           intros (_ & _ & H); discriminate).
      * split; [lia|]. split; [discriminate|].
        intros (_ & _ & H); discriminate.
    + split; [lia|]. split; [auto|reflexivity].
Qed.

(** ** Invariants of the collection *)

Lemma updateOne_map {B} (f : User -> B) (doc u : User) (now : Z)
  (us : list User) :
  NoDup (map _id us) -> In u us ->
  _id doc = _id u -> f doc = f u ->
  (forall x t, f (set_updatedAt x t) = f x) ->
  map f (updateOne doc now us) = map f us.
Proof.
  intros Hnd Hin Hid Hf Hset.
  apply in_split in Hin. destruct Hin as (l1 & l2 & ->).
  rewrite updateOne_split by assumption.
  rewrite !map_app. cbn. destruct (User_eq_dec u doc); [reflexivity|].
  now rewrite Hset, Hf.
Qed.

Lemma find_none_not_in (e : string) (us : list User) :
  find (fun x => String.eqb (email x) e) us = None ->
  ~ In e (map email us).
Proof.
  intros Hf Hin. apply in_map_iff in Hin. destruct Hin as (x & Hx & Hin).
  pose proof (find_none _ _ Hf x Hin) as H. cbn in H.
  apply String.eqb_neq in H. auto.
Qed.

Lemma emails_unique_step (L : Libs) (c : Call) (req : Request) (w : World) :
  NoDup (map _id (users w)) ->
  NoDup (map email (users w)) ->
  NoDup (map email (users (fst (run (handle L c req) w)))).
Proof.
  intros Hid Hem. destruct c; cbn [handle].
  - destruct (register_paths L req w)
      as [[E _]|(d & E & _ & Hf & _ & _ & Hd & _)]; rewrite E; [exact Hem|].
    rewrite map_app. cbn. apply NoDup_app; [exact Hem| |].
    + repeat constructor. intros [].
    + intros x Hx [<-|[]]. rewrite Hd in Hx.
      exact (find_none_not_in _ _ Hf Hx).
  - now rewrite login_world.
  - destruct (forgotPassword_paths L req w) as [[E _]|(u & Hf & _ & E & _)];
      rewrite E; [exact Hem|].
    apply find_some in Hf. destruct Hf as [Hin _].
    rewrite (updateOne_map email _ u); auto.
  - destruct (resetPassword_paths L req w) as [[E _]|(u & Hf & _ & E & _)];
      rewrite E; [exact Hem|].
    apply find_some in Hf. destruct Hf as [Hin _].
    rewrite (updateOne_map email _ u); auto.
Qed.

Lemma reset_fields_paired_step (L : Libs) (c : Call) (req : Request)
  (w : World) :
  Forall reset_fields_paired (users w) ->
  Forall reset_fields_paired (users (fst (run (handle L c req) w))).
Proof.
  intros H. rewrite Forall_forall in *. intros x Hx.
  destruct c; cbn [handle] in Hx.
  - destruct (register_paths L req w)
      as [[E _]|(d & E & _ & _ & _ & _ & _ & _ & _ & Ht & Hx')];
      rewrite E in Hx; [auto|].
    apply in_app_or in Hx. destruct Hx as [Hx|[<-|[]]]; [auto|].
    unfold reset_fields_paired. now rewrite Ht, Hx'.
  - rewrite login_world in Hx. auto.
  - destruct (forgotPassword_paths L req w) as [[E _]|(u & _ & _ & E & _)];
      rewrite E in Hx; [auto|].
    apply updateOne_In in Hx. destruct Hx as [Hx | ->]; [auto|reflexivity].
  - destruct (resetPassword_paths L req w) as [[E _]|(u & _ & _ & E & _)];
      rewrite E in Hx; [auto|].
    apply updateOne_In in Hx. destruct Hx as [Hx | ->]; [auto|reflexivity].
Qed.

(** X11: in every world reached from the empty collection through the four
    auth handlers, [_id]s are unique and below the ObjectId counter, and
    every stored document passes the schema's validation (non-empty name,
    email and password, role in the enum). *)
Theorem reachable_collection_well_formed (L : Libs) (w : World) :
  reachable L w ->
  NoDup (map _id (users w))
  /\ (forall u, In u (users w) ->
        name u <> "" /\ email u <> "" /\ password u <> "" /\
        In (role u) role_enum /\ _id u < nextId w).
Proof.
  intros Hr. destruct (reachable_world_ok L w Hr) as [[Hnd Hv] Hlt].
  split; [exact Hnd|]. intros u Hin.
  rewrite Forall_forall in Hv, Hlt. specialize (Hv u Hin).
  specialize (Hlt u Hin). unfold validate in Hv.
  destruct (String.eqb (name u) "") eqn:E1; [discriminate|].
  destruct (String.eqb (email u) "") eqn:E2; [discriminate|].
  destruct (String.eqb (password u) "") eqn:E3; [discriminate|].
  destruct (in_enum (role u)) eqn:E4; [|discriminate].
  apply String.eqb_neq in E1, E2, E3.
  repeat split; auto.
  unfold in_enum in E4. apply existsb_exists in E4.
  destruct E4 as (r & Hr' & Heq). apply String.eqb_eq in Heq. now subst.
Qed.

(** X12: in every world reached from the empty collection through the four
    auth handlers, no two stored users share an email. *)
Theorem reachable_emails_unique (L : Libs) (w : World) :
  reachable L w -> NoDup (map email (users w)).
Proof.
  induction 1 as [t k e|w c req t Hr IH].
  - constructor.
  - apply emails_unique_step; [|exact IH].
    apply (reachable_world_ok L w Hr).
Qed.

(** X13: in every world reached from the empty collection through the four
    auth handlers, each stored user has [resetToken] and
    [resetTokenExpiration] either both set or both unset. *)
Theorem reachable_reset_fields_paired (L : Libs) (w : World) (u : User) :
  reachable L w -> In u (users w) ->
  (resetToken u = None <-> resetTokenExpiration u = None).
Proof.
  intros Hr Hin.
  assert (H : Forall reset_fields_paired (users w)).
  { clear u Hin. induction Hr as [t k e|w c req t _ IH]; [constructor|].
    apply reset_fields_paired_step. exact IH. }
  rewrite Forall_forall in H. specialize (H u Hin).
  unfold reset_fields_paired in H.
  destruct (resetToken u), (resetTokenExpiration u);
    cbn in H; try discriminate; split; intros; congruence.
Qed.

(** X14: no auth handler deletes or reorders users or assigns the [_id],
    name, email, role, balance or createdAt of a stored user: after any
    request these fields of the collection are as before, followed by those
    of at most one added user. *)
Theorem handlers_keep_identity (L : Libs) (c : Call) (req : Request)
  (w : World) :
  NoDup (map _id (users w)) ->
  exists added,
    map identity (users (fst (run (handle L c req) w))) =
      map identity (users w) ++ added
    /\ (length added <= 1)%nat.
Proof.
  intros Hnd. destruct c; cbn [handle].
  - destruct (register_paths L req w) as [[E _]|(d & E & _)]; rewrite E.
    + exists []. rewrite app_nil_r. split; [reflexivity|cbn; lia].
    + exists [identity d]. rewrite map_app. split; [reflexivity|cbn; lia].
  - rewrite login_world. exists []. rewrite app_nil_r.
    split; [reflexivity|cbn; lia].
  - exists []. rewrite app_nil_r. split; [|cbn; lia].
    destruct (forgotPassword_paths L req w) as [[E _]|(u & Hf & _ & E & _)];
      rewrite E; [reflexivity|].
    apply find_some in Hf. destruct Hf as [Hin _].
    apply (updateOne_map identity _ u); auto.
  - exists []. rewrite app_nil_r. split; [|cbn; lia].
    destruct (resetPassword_paths L req w) as [[E _]|(u & Hf & _ & E & _)];
      rewrite E; [reflexivity|].
    apply find_some in Hf. destruct Hf as [Hin _].
    apply (updateOne_map identity _ u); auto.
Qed.

(** ** Sequences of requests *)

Lemma find_app_none {A} (p : A -> bool) (l1 l2 : list A) :
  find p l1 = None -> find p (l1 ++ l2) = find p l2.
Proof.
  induction l1 as [|a l1 IH]; cbn; [reflexivity|].
  destruct (p a); [discriminate|exact IH].
Qed.

Lemma find_first_unique (p : User -> bool) (l1 l2 : list User) (u : User) :
  NoDup (map _id (l1 ++ u :: l2)) ->
  find p (l1 ++ u :: l2) = Some u ->
  forall x, In x l1 -> p x = false.
Proof.
  induction l1 as [|a l1 IH]; cbn; intros Hnd Hf x Hx; [contradiction|].
  inversion Hnd as [|? ? Hnotin Hnd']; subst.
  destruct (p a) eqn:Ea.
  - exfalso. injection Hf as ->. apply Hnotin.
    rewrite map_app. apply in_or_app. right. now left.
  - destruct Hx as [<-|Hx]; [exact Ea|]. apply IH; assumption.
Qed.

Lemma login_found (L : Libs) (req : Request) (w : World) (u : User) :
  truthy (get "email" (body req)) = true ->
  truthy (get "password" (body req)) = true ->
  find (fun x => String.eqb (email x) (str (get "email" (body req))))
       (users w) = Some u ->
  let token := jwt_sign L (IdRole (_id u) (role u)) (JWT_SECRET L) "1h"
                        (clock w / 1000) in
  token <> "" ->
  response (snd (run (login L req) w)) =
    if bcrypt_compare L (str (get "password" (body req))) (password u)
    then Some (200, "Login successful.", DataToken token)
    else Some (400, "Password incorrect. Please try again", NoData).
Proof.
  intros He Hp Hf token Ht. unfold login. unfold_handler. rewrite He, Hp.
  cbn. rewrite Hf. cbn.
  destruct (bcrypt_compare L _ _); cbn; [|reflexivity].
  fold token. apply String.eqb_neq in Ht. rewrite Ht. reflexivity.
Qed.

(** X15: a reset token works once.  After a successful resetPassword with
    a token that no other record carries, any later resetPassword with the
    same token, whatever the password and the time, is answered by the 404
    error and changes nothing. *)
Theorem reset_token_single_use (L : Libs) (req req2 : Request) (w : World)
  (t2 : Z) (u : User) :
  hash_nonempty L ->
  store_ok (users w) ->
  truthy (get "password" (body req)) = true ->
  find (reset_filter (params_token req) (clock w)) (users w) = Some u ->
  (forall v, In v (users w) -> _id v <> _id u ->
             resetToken v <> Some (params_token req)) ->
  params_token req2 = params_token req ->
  truthy (get "password" (body req2)) = true ->
  let w' := at_time t2 (fst (run (resetPassword L req) w)) in
  response (snd (run (resetPassword L req) w)) =
    Some (200, "Password reset successful.", NoData)
  /\ run (resetPassword L req2) w' =
       (w', [next (Some (mkCustomError
                           "Password reset token expired or invalid." 404))]).
Proof.
  intros Hne Hok Hp Hf Hothers Htok Hp2 w'.
  destruct (resetPassword_found L req w u Hne Hok Hp Hf)
    as (l1 & l2 & Hus & E).
  subst w'. rewrite E. cbn [fst snd]. split; [reflexivity|].
  apply resetPassword_not_found; [exact Hp2|].
  apply find_all_false. cbn. intros x Hx.
  destruct (reset_filter (params_token req2) t2 x) eqn:Ef; [|reflexivity].
  apply reset_filter_true in Ef. destruct Ef as [Hrt _].
  rewrite Htok in Hrt. exfalso.
  apply in_app_or in Hx. destruct Hx as [Hx|[<-|Hx]].
  - apply (Hothers x); [rewrite Hus; apply in_or_app; now left| |exact Hrt].
    apply (NoDup_ids_others l1 l2 u x); [rewrite <- Hus; apply Hok|].
    apply in_or_app. now left.
  - discriminate Hrt.
  - apply (Hothers x);
      [rewrite Hus; apply in_or_app; right; now right| |exact Hrt].
    apply (NoDup_ids_others l1 l2 u x); [rewrite <- Hus; apply Hok|].
    apply in_or_app. now right.
Qed.

(** X16: after a successful registration, a login with the same email and
    password, at any later time, is answered 200 with a token signed over
    the new user's [_id] and role. *)
Theorem register_then_login (L : Libs) (req req2 : Request) (w : World)
  (t2 : Z) :
  hash_nonempty L -> compare_accepts L ->
  truthy (get "name" (body req)) = true ->
  truthy (get "email" (body req)) = true ->
  truthy (get "password" (body req)) = true ->
  match get "role" (body req) with
  | Some r => in_enum r = true
  | None => True
  end ->
  (forall u, In u (users w) -> email u <> str (get "email" (body req))) ->
  get "email" (body req2) = get "email" (body req) ->
  get "password" (body req2) = get "password" (body req) ->
  let token :=
    jwt_sign L (IdRole (nextId w)
                       (match get "role" (body req) with
                        | Some r => r
                        | None => "user"
                        end))
             (JWT_SECRET L) "1h" (t2 / 1000) in
  token <> "" ->
  response (snd (run (register L req) w))
    = Some (201, "New user created.",
            DataUser (mkUser (nextId w) (str (get "name" (body req)))
                        (str (get "email" (body req)))
                        (bcrypt_hash L (entropy w)
                                     (str (get "password" (body req))) 10)
                        (match get "role" (body req) with
                         | Some r => r
                         | None => "user"
                         end)
                        0 None None (clock w) (clock w)))
  /\ response (snd (run (login L req2)
                        (at_time t2 (fst (run (register L req) w)))))
     = Some (200, "Login successful.", DataToken token).
Proof.
  intros Hne Hacc Hn He Hp Hr Hfresh He2 Hp2 token Ht.
  pose proof (register_new_email L req w Hne Hn He Hp Hr Hfresh) as E.
  cbv zeta in E. rewrite E. cbn [fst snd]. split; [reflexivity|].
  set (d := mkUser (nextId w) (str (get "name" (body req)))
              (str (get "email" (body req)))
              (bcrypt_hash L (entropy w)
                           (str (get "password" (body req))) 10)
              (match get "role" (body req) with
               | Some r => r
               | None => "user"
               end)
              0 None None (clock w) (clock w)) in *.
  assert (Hf : find (fun x => String.eqb (email x)
                                 (str (get "email" (body req2))))
                    (users w ++ [d]) = Some d).
  { rewrite He2. rewrite find_app_none.
    - cbn. now rewrite String.eqb_refl.
    - apply find_all_false. intros u Hin. apply String.eqb_neq. auto. }
  rewrite (login_found L req2 _ d).
  - cbn. rewrite Hp2. unfold compare_accepts in Hacc. rewrite Hacc.
    reflexivity.
  - rewrite He2. exact He.
  - rewrite Hp2. exact Hp.
  - exact Hf.
  - exact Ht.
Qed.

(** ** The guarded routes *)

Lemma guard_admits (allowedRoles : list string) (req : Request) (w : World)
  (c : Claims) :
  user req = Some c ->
  includes allowedRoles (claim_role c) = true ->
  guard allowedRoles req w = (req, w, [next None]).
Proof.
  intros Hu Hi. unfold guard, authorizationRoles. unfold_handler.
  rewrite Hu, Hi. reflexivity.
Qed.

Lemma guarded_stack_admits (validateToken handler : Middleware)
  (allowedRoles : list string) (req req1 req2 : Request) (w w1 w2 : World)
  (t1 t2 : list Event) (c : Claims) :
  validateToken req w = (req1, w1, t1) ->
  called_next t1 = true ->
  user req1 = Some c ->
  includes allowedRoles (claim_role c) = true ->
  handler req1 w1 = (req2, w2, t2) ->
  dispatch [validateToken; guard allowedRoles; handler] req w =
    (w2, t1 ++ next None :: t2).
Proof.
  intros Hv Hn Hu Hi Hh. cbn.
  rewrite Hv, Hn, (guard_admits _ _ _ c Hu Hi). cbn. rewrite Hh.
  destruct (called_next t2); [rewrite app_nil_r|]; reflexivity.
Qed.

(** X18: on every route of the router a request authenticated as admin, and
    on GET and PUT /user/:id also one authenticated as user, passes the
    guard: the guard calls [next()] once and changes nothing, and the
    route's handler runs on the request and the world the token middleware
    left. *)
Theorem guarded_routes_admit
  (validateToken getUsers getUserByID updateUser deleteUser : Middleware)
  (r : Route) (req req1 req2 : Request) (w w1 w2 : World)
  (t1 t2 : list Event) (c : Claims) :
  In r (router validateToken getUsers getUserByID updateUser deleteUser) ->
  validateToken req w = (req1, w1, t1) ->
  called_next t1 = true ->
  user req1 = Some c ->
  claim_role c = Some "admin" \/
  (claim_role c = Some "user" /\ path r = "/user/:id" /\
   (method r = GET \/ method r = PUT)) ->
  protected_handler r req1 w1 = (req2, w2, t2) ->
  dispatch (stack r) req w = (w2, t1 ++ next None :: t2).
Proof.
  intros Hin Hv Hn Hu Hrole Hh. simpl in Hin.
  destruct Hin as [<-|[<-|[<-|[<-|[]]]]]; cbn in Hh, Hrole |- *;
    (eapply guarded_stack_admits; try eassumption;
     destruct Hrole as [-> | (-> & Hp & Hm)]; try reflexivity;
     try discriminate; destruct Hm; discriminate).
Qed.

(** X19: when the token middleware does not call [next()], the route ends
    with it, on every route of the router: neither the role guard nor the
    handler runs, and trace and world are those the token middleware
    left. *)
Theorem unauthenticated_request_stops
  (validateToken getUsers getUserByID updateUser deleteUser : Middleware)
  (r : Route) (req req1 : Request) (w w1 : World) (t1 : list Event) :
  In r (router validateToken getUsers getUserByID updateUser deleteUser) ->
  validateToken req w = (req1, w1, t1) ->
  called_next t1 = false ->
  dispatch (stack r) req w = (w1, t1).
Proof.
  intros Hin Hv Hn. simpl in Hin.
  destruct Hin as [<-|[<-|[<-|[<-|[]]]]]; cbn; rewrite Hv, Hn; reflexivity.
Qed.

(** X20: on GET and PUT /user/:id a request that passed token validation
    without [req.user], or with a role that is neither user nor admin, is
    stopped by the guard with the 401 error; the handler does not run. *)
Theorem user_routes_refuse_other_roles
  (validateToken getUsers getUserByID updateUser deleteUser : Middleware)
  (r : Route) (req req1 : Request) (w w1 : World) (t1 : list Event) :
  In r (router validateToken getUsers getUserByID updateUser deleteUser) ->
  path r = "/user/:id" ->
  method r = GET \/ method r = PUT ->
  validateToken req w = (req1, w1, t1) ->
  called_next t1 = true ->
  role_refused ["user"; "admin"] req1 ->
  dispatch (stack r) req w = (w1, t1 ++ [next (Some unauthorized)]).
Proof.
  intros Hin Hp Hm Hv Hn Hr. simpl in Hin.
  destruct Hin as [<-|[<-|[<-|[<-|[]]]]]; cbn in Hp, Hm;
    try discriminate; try (destruct Hm; discriminate);
    cbn [stack]; eapply guarded_stack_refuses; eassumption.
Qed.

(** X2: a registration with non-empty name, email and password, an email no
    stored user has and a role that is absent or in the enum appends one
    document to the collection and answers 201 with it.  The document gets
    a fresh [_id], the submitted name and email, the hash of the password,
    the submitted role (so "admin" if the client says so) or "user" when
    none is given, balance 0, no reset fields and both timestamps equal to
    the time of the request. *)
Theorem register_creates_user (L : Libs) (req : Request) (w : World) :
  hash_nonempty L ->
  truthy (get "name" (body req)) = true ->
  truthy (get "email" (body req)) = true ->
  truthy (get "password" (body req)) = true ->
  match get "role" (body req) with
  | Some r => in_enum r = true
  | None => True
  end ->
  (forall u, In u (users w) -> email u <> str (get "email" (body req))) ->
  let d := mkUser (nextId w) (str (get "name" (body req)))
                  (str (get "email" (body req)))
                  (bcrypt_hash L (entropy w)
                               (str (get "password" (body req))) 10)
                  (match get "role" (body req) with
                   | Some r => r
                   | None => "user"
                   end)
                  0 None None (clock w) (clock w) in
  run (register L req) w =
    (mkWorld (users w ++ [d]) (clock w) (nextId w + 1) (S (entropy w)),
     [bcrypt_hash_called (str (get "password" (body req))) 10;
      res_json 201 "New user created." (DataUser d)]).
Proof.
  exact (register_new_email L req w).
Qed.

(** X21: the stored expiration alone decides how long a reset token works.
    After forgotPassword at time [clock w] for a user [u], with the signed
    token carried by no other record, a resetPassword with that token is
    answered 200 at every time before [clock w] + 5 hours, also long after
    the 30 minutes the token was signed for, and by the 404 error, changing
    nothing, from [clock w] + 5 hours on. *)
Theorem forgot_then_reset_window (L : Libs) (req req3 : Request) (w : World)
  (t3 : Z) (u : User) :
  hash_nonempty L ->
  store_ok (users w) ->
  truthy (get "email" (body req)) = true ->
  find (fun x => String.eqb (email x) (str (get "email" (body req))))
       (users w) = Some u ->
  let token := jwt_sign L (EmailClaim (email u)) (JWT_SECRET L) "30m"
                        (clock w / 1000) in
  (forall v, In v (users w) -> _id v <> _id u -> resetToken v <> Some token) ->
  params_token req3 = token ->
  truthy (get "password" (body req3)) = true ->
  let w1 := at_time t3 (fst (run (forgotPassword L req) w)) in
  (t3 < clock w + 18000000 ->
   response (snd (run (resetPassword L req3) w1)) =
     Some (200, "Password reset successful.", NoData))
  /\ (clock w + 18000000 <= t3 ->
      run (resetPassword L req3) w1 =
        (w1, [next (Some (mkCustomError
                            "Password reset token expired or invalid."
                            404))])).
Proof.
  intros Hne Hok He Hf token Hothers Htok Hp w1.
  destruct (forgotPassword_found L req w u Hok He Hf) as (l1 & l2 & Hus & E).
  destruct (forgot_stored_fields L w u)
    as (Hid & Hn & Hem & Hpw & Hr & _ & _ & Ht & Hexp).
  fold token in Ht.
  assert (Hin : In u (users w)).
  { rewrite Hus. apply in_or_app. right. now left. }
  assert (Hw1 : users w1 = l1 ++ forgot_stored L w u :: l2).
  { subst w1. rewrite E. reflexivity. }
  assert (Hok1 : store_ok (users w1)).
  { rewrite Hw1. apply store_ok_replace with (u := u).
    - rewrite <- Hus. exact Hok.
    - exact Hid.
    - rewrite (validate_fields _ u) by assumption.
      apply (store_ok_valid _ _ Hok Hin). }
  assert (Hrest : forall x, In x (l1 ++ l2) ->
                            reset_filter token t3 x = false).
  { intros x Hx.
    destruct (reset_filter token t3 x) eqn:Ef; [|reflexivity].
    apply reset_filter_true in Ef. destruct Ef as [Hrt _]. exfalso.
    apply (Hothers x); [| |exact Hrt].
    - rewrite Hus. apply in_app_or in Hx. apply in_or_app.
      destruct Hx; [now left|right; now right].
    - apply (NoDup_ids_others l1 l2 u x); [rewrite <- Hus; apply Hok|].
      exact Hx. }
  split.
  - intros Hlt.
    assert (Hf1 : find (reset_filter (params_token req3) (clock w1))
                       (users w1) = Some (forgot_stored L w u)).
    { rewrite Hw1, Htok. subst w1. cbn [clock at_time].
      apply find_app_first.
      - intros x Hx. apply Hrest. apply in_or_app. now left.
      - apply reset_filter_true. split; [exact Ht|].
        exists (clock w + 18000000). split; [exact Hexp|exact Hlt]. }
    destruct (resetPassword_found L req3 w1 _ Hne Hok1 Hp Hf1)
      as (l1' & l2' & _ & E1).
    rewrite E1. reflexivity.
  - intros Hge. apply resetPassword_not_found; [exact Hp|].
    apply find_all_false. rewrite Hw1, Htok. subst w1. cbn [clock at_time].
    intros x Hx. apply in_app_or in Hx. destruct Hx as [Hx|[<-|Hx]].
    + apply Hrest. apply in_or_app. now left.
    + unfold reset_filter. rewrite Ht, Hexp.
      rewrite String.eqb_refl. cbn. apply Z.ltb_ge. exact Hge.
    + apply Hrest. apply in_or_app. now right.
Qed.

(** ** The further properties at the sample history *)

Lemma missing_input_witness :
  run (register Sample.libs
         (Sample.post [("name", "Bob"); ("email", ""); ("password", "P2")]))
      Sample.w1 =
    (Sample.w1,
     [next (Some (mkCustomError
                    "Input fields are empty. Please fill the fields." 400))]).
Proof.
  apply (missing_input_rejected Sample.libs Register
           (Sample.post [("name", "Bob"); ("email", ""); ("password", "P2")])
           Sample.w1 "email").
  - right. now left.
  - reflexivity.
Defined.

Lemma register_creates_user_witness :
  run (register Sample.libs Sample.bob_register) (at_time 3000 Sample.w2) =
    (mkWorld [Sample.alice2; Sample.bob] 3000 3 2%nat,
     [bcrypt_hash_called "P2" 10;
      res_json 201 "New user created." (DataUser Sample.bob)]).
Proof.
  apply (register_creates_user Sample.libs Sample.bob_register
           (at_time 3000 Sample.w2)).
  - exact sample_hash_nonempty.
  - reflexivity.
  - reflexivity.
  - reflexivity.
  - reflexivity.
  - intros u [<-|[]]. discriminate.
Defined.

Lemma register_invalid_role_witness :
  run (register Sample.libs
         (Sample.post [("name", "Bob"); ("email", "b@x.com");
                       ("password", "P2"); ("role", "root")]))
      (at_time 3000 Sample.w2) =
    (mkWorld [Sample.alice2] 3000 3 2%nat,
     [bcrypt_hash_called "P2" 10;
      next (Some (mkCustomError
        "users validation failed: role: `root` is not a valid enum value for path `role`."
        500))]).
Proof.
  apply (register_invalid_role_rejected Sample.libs
           (Sample.post [("name", "Bob"); ("email", "b@x.com");
                         ("password", "P2"); ("role", "root")])
           (at_time 3000 Sample.w2) "root").
  - exact sample_hash_nonempty.
  - reflexivity.
  - reflexivity.
  - reflexivity.
  - intros u [<-|[]]. discriminate.
  - reflexivity.
  - reflexivity.
Defined.

Lemma login_wrong_password_witness :
  run (login Sample.libs
         (Sample.post [("email", "a@x.com"); ("password", "nope")]))
      Sample.w2 =
    (Sample.w2,
     [bcrypt_compare_called "nope" "$a$P1";
      next (Some (mkCustomError "Password incorrect. Please try again"
                                400))]).
Proof.
  apply (login_wrong_password_rejected Sample.libs
           (Sample.post [("email", "a@x.com"); ("password", "nope")])
           Sample.w2 Sample.alice2); reflexivity.
Defined.

Lemma login_success_witness :
  run (login Sample.libs
         (Sample.post [("email", "a@x.com"); ("password", "P1")]))
      Sample.w2 =
    (Sample.w2,
     [bcrypt_compare_called "P1" "$a$P1";
      jwt_sign_called (IdRole 1 "user") "1h";
      res_cookie "authToken" "jwt.id=1,role=user.1h.2.s3cret" true 3600000;
      res_json 200 "Login successful."
               (DataToken "jwt.id=1,role=user.1h.2.s3cret");
      console_log "user logged."])
  /\ ms "1h" = Some 3600000.
Proof.
  apply (login_success Sample.libs
           (Sample.post [("email", "a@x.com"); ("password", "P1")])
           Sample.w2 Sample.alice2);
    try reflexivity.
  discriminate.
Defined.

Lemma forgotPassword_unknown_email_witness :
  run (forgotPassword Sample.libs (Sample.post [("email", "nobody@x.com")]))
      Sample.w1 =
    (Sample.w1, [next (Some (mkCustomError "User not found." 404))]).
Proof.
  apply (forgotPassword_unknown_email_rejected Sample.libs
           (Sample.post [("email", "nobody@x.com")]) Sample.w1).
  - reflexivity.
  - intros u [<-|[]]. discriminate.
Defined.

Lemma forgotPassword_mail_failure_witness :
  snd (run (forgotPassword Sample.libs_mail_down Sample.alice_forgot)
           (at_time 2000 Sample.w1)) =
    [jwt_sign_called (EmailClaim "a@x.com") "30m";
     emailService_called "a@x.com" "Password reset for Financial Tracker"
                         (ResetMail "localhost" Sample.token1);
     next (Some (mkCustomError "connect ECONNREFUSED 127.0.0.1:587" 500))]
  /\ exists l1 l2 u',
       users (at_time 2000 Sample.w1) = l1 ++ Sample.alice1 :: l2 /\
       users (fst (run (forgotPassword Sample.libs_mail_down
                          Sample.alice_forgot)
                       (at_time 2000 Sample.w1))) = l1 ++ u' :: l2 /\
       _id u' = 1 /\
       resetToken u' = Some Sample.token1 /\
       resetTokenExpiration u' = Some (2000 + 18000000).
Proof.
  exact (forgotPassword_mail_failure_keeps_token
           Sample.libs_mail_down Sample.alice_forgot (at_time 2000 Sample.w1)
           Sample.alice1 "connect ECONNREFUSED 127.0.0.1:587"
           sample_store_ok_w1 eq_refl eq_refl eq_refl).
Defined.

Lemma reachable_collection_witness :
  NoDup (map _id (users Sample.w2))
  /\ (forall u, In u (users Sample.w2) ->
        name u <> "" /\ email u <> "" /\ password u <> "" /\
        In (role u) role_enum /\ _id u < nextId Sample.w2).
Proof.
  exact (reachable_collection_well_formed Sample.libs Sample.w2
           sample_w2_reachable).
Defined.

Lemma reachable_emails_witness : NoDup (map email (users Sample.w2)).
Proof.
  exact (reachable_emails_unique Sample.libs Sample.w2 sample_w2_reachable).
Defined.

Lemma reachable_reset_fields_witness :
  resetToken Sample.alice2 = None <->
  resetTokenExpiration Sample.alice2 = None.
Proof.
  apply (reachable_reset_fields_paired Sample.libs Sample.w2 Sample.alice2).
  - exact sample_w2_reachable.
  - now left.
Defined.

Lemma handlers_keep_identity_witness :
  exists added,
    map identity
        (users (fst (run (handle Sample.libs ResetPassword
                            (Sample.post_token Sample.token1
                                               [("password", "P2")]))
                         (at_time 5000 Sample.w2)))) =
      map identity (users (at_time 5000 Sample.w2)) ++ added
    /\ (length added <= 1)%nat.
Proof.
  apply (handlers_keep_identity Sample.libs ResetPassword
           (Sample.post_token Sample.token1 [("password", "P2")])
           (at_time 5000 Sample.w2)).
  exact (proj1 sample_store_ok_w2).
Defined.

Lemma reset_token_single_use_witness :
  response (snd (run (resetPassword Sample.libs
                        (Sample.post_token Sample.token1
                                           [("password", "P2")]))
                     (at_time 5000 Sample.w2))) =
    Some (200, "Password reset successful.", NoData)
  /\ run (resetPassword Sample.libs
            (Sample.post_token Sample.token1 [("password", "P3")]))
         (at_time 6000
            (fst (run (resetPassword Sample.libs
                         (Sample.post_token Sample.token1
                                            [("password", "P2")]))
                      (at_time 5000 Sample.w2)))) =
       (at_time 6000
          (fst (run (resetPassword Sample.libs
                       (Sample.post_token Sample.token1
                                          [("password", "P2")]))
                    (at_time 5000 Sample.w2))),
        [next (Some (mkCustomError
                       "Password reset token expired or invalid." 404))]).
Proof.
  apply (reset_token_single_use Sample.libs
           (Sample.post_token Sample.token1 [("password", "P2")])
           (Sample.post_token Sample.token1 [("password", "P3")])
           (at_time 5000 Sample.w2) 6000 Sample.alice2).
  - exact sample_hash_nonempty.
  - exact sample_store_ok_w2.
  - reflexivity.
  - reflexivity.
  - intros v [<-|[]] H. now contradiction H.
  - reflexivity.
  - reflexivity.
Defined.

Lemma register_then_login_witness :
  response (snd (run (register Sample.libs Sample.alice_register)
                     (at_time 1000 Sample.empty)))
    = Some (201, "New user created.", DataUser Sample.alice1)
  /\ response
       (snd (run (login Sample.libs
                    (Sample.post [("email", "a@x.com"); ("password", "P1")]))
                 (at_time 1500
                    (fst (run (register Sample.libs Sample.alice_register)
                              (at_time 1000 Sample.empty))))))
     = Some (200, "Login successful.",
             DataToken "jwt.id=1,role=user.1h.1.s3cret").
Proof.
  apply (register_then_login Sample.libs Sample.alice_register
           (Sample.post [("email", "a@x.com"); ("password", "P1")])
           (at_time 1000 Sample.empty) 1500).
  - exact sample_hash_nonempty.
  - exact sample_compare_accepts.
  - reflexivity.
  - reflexivity.
  - reflexivity.
  - exact I.
  - intros u [].
  - reflexivity.
  - reflexivity.
  - discriminate.
Defined.

Lemma guarded_routes_admit_witness :
  dispatch [Sample.as_user; guard ["user"; "admin"]; Sample.show]
           (Sample.post []) Sample.w1 =
    (Sample.w1,
     [next None] ++ next None :: [res_json 200 "Fetched data" NoData]).
Proof.
  apply (guarded_routes_admit
           Sample.as_user Sample.wipe Sample.show Sample.wipe Sample.wipe
           (mkRoute GET "/user/:id"
                    [Sample.as_user; guard ["user"; "admin"]; Sample.show])
           (Sample.post [])
           (mkRequest [] "" "localhost" (Some (mkClaims 7 (Some "user"))))
           (mkRequest [] "" "localhost" (Some (mkClaims 7 (Some "user"))))
           Sample.w1 Sample.w1 Sample.w1
           [next None] [res_json 200 "Fetched data" NoData]
           (mkClaims 7 (Some "user"))).
  - right. left. reflexivity.
  - reflexivity.
  - reflexivity.
  - reflexivity.
  - right. repeat split. now left.
  - reflexivity.
Defined.

Lemma unauthenticated_request_witness :
  dispatch [Sample.no_token; guard ["admin"]; Sample.wipe]
           (Sample.post []) Sample.w1 =
    (Sample.w1,
     [next (Some (mkCustomError "No token, authorization denied." 401))]).
Proof.
  apply (unauthenticated_request_stops
           Sample.no_token Sample.wipe Sample.wipe Sample.wipe Sample.wipe
           (mkRoute DELETE "/user/:id"
                    [Sample.no_token; guard ["admin"]; Sample.wipe])
           (Sample.post []) (Sample.post []) Sample.w1 Sample.w1
           [next (Some (mkCustomError "No token, authorization denied."
                                      401))]).
  - right. right. right. left. reflexivity.
  - reflexivity.
  - reflexivity.
Defined.

Lemma user_routes_refuse_witness :
  dispatch [Sample.as_guest; guard ["user"; "admin"]; Sample.wipe]
           (Sample.post []) Sample.w1 =
    (Sample.w1, [next None] ++ [next (Some unauthorized)]).
Proof.
  apply (user_routes_refuse_other_roles
           Sample.as_guest Sample.wipe Sample.wipe Sample.wipe Sample.wipe
           (mkRoute PUT "/user/:id"
                    [Sample.as_guest; guard ["user"; "admin"]; Sample.wipe])
           (Sample.post [])
           (mkRequest [] "" "localhost" (Some (mkClaims 8 (Some "guest"))))
           Sample.w1 Sample.w1 [next None]).
  - right. right. left. reflexivity.
  - reflexivity.
  - now right.
  - reflexivity.
  - reflexivity.
  - reflexivity.
Defined.

Lemma forgot_then_reset_window_witness :
  (14402000 < 2000 + 18000000 ->
   response
     (snd (run (resetPassword Sample.libs
                  (Sample.post_token Sample.token1 [("password", "P2")]))
               (at_time 14402000
                  (fst (run (forgotPassword Sample.libs Sample.alice_forgot)
                            (at_time 2000 Sample.w1)))))) =
     Some (200, "Password reset successful.", NoData))
  /\ (2000 + 18000000 <= 14402000 ->
      run (resetPassword Sample.libs
             (Sample.post_token Sample.token1 [("password", "P2")]))
          (at_time 14402000
             (fst (run (forgotPassword Sample.libs Sample.alice_forgot)
                       (at_time 2000 Sample.w1)))) =
        (at_time 14402000
           (fst (run (forgotPassword Sample.libs Sample.alice_forgot)
                     (at_time 2000 Sample.w1))),
         [next (Some (mkCustomError
                        "Password reset token expired or invalid." 404))])).
Proof.
  apply (forgot_then_reset_window Sample.libs Sample.alice_forgot
           (Sample.post_token Sample.token1 [("password", "P2")])
           (at_time 2000 Sample.w1) 14402000 Sample.alice1).
  - exact sample_hash_nonempty.
  - exact sample_store_ok_w1.
  - reflexivity.
  - reflexivity.
  - intros v [<-|[]] H. now contradiction H.
  - reflexivity.
  - reflexivity.
Defined.

Example sample_reset_after_four_hours :
  response
    (snd (run (resetPassword Sample.libs
                 (Sample.post_token Sample.token1 [("password", "P2")]))
              (at_time 14402000 Sample.w2))) =
  Some (200, "Password reset successful.", NoData).
Proof. reflexivity. Qed.

(** * Reset tokens in reachable worlds *)

Lemma NoDup_map_inj {A B} (f : A -> B) (l : list A) (x y : A) :
  NoDup (map f l) -> In x l -> In y l -> f x = f y -> x = y.
Proof.
  induction l as [|a l IH]; cbn; intros Hnd Hx Hy E; [contradiction|].
  inversion Hnd as [|? ? Hnotin Hnd']; subst.
  destruct Hx as [->|Hx], Hy as [->|Hy]; auto.
  - exfalso. apply Hnotin. rewrite E. now apply in_map.
  - exfalso. apply Hnotin. rewrite <- E. now apply in_map.
Qed.

Lemma find_unique_match {A} (p : A -> bool) (l : list A) (u : A) :
  In u l -> p u = true ->
  (forall v, In v l -> p v = true -> v = u) ->
  find p l = Some u.
Proof.
  intros Hin Hp Huniq.
  destruct (find_In_some p l u Hin Hp) as [y Hy]. rewrite Hy. f_equal.
  apply find_some in Hy. destruct Hy as [Hy1 Hy2]. auto.
Qed.

Lemma tokens_signed_step (L : Libs) (c : Call) (req : Request) (w : World) :
  tokens_signed L (users w) ->
  tokens_signed L (users (fst (run (handle L c req) w))).
Proof.
  intros H x k Hx Hk. destruct c; cbn [handle] in Hx.
  - destruct (register_paths L req w)
      as [[E _]|(d & E & _ & _ & _ & _ & _ & _ & _ & Ht & _)];
      rewrite E in Hx; [eauto|].
    apply in_app_or in Hx. destruct Hx as [Hx|[<-|[]]]; [eauto|].
    congruence.
  - rewrite login_world in Hx. eauto.
  - destruct (forgotPassword_paths L req w) as [[E _]|(u & _ & _ & E & _)];
      rewrite E in Hx; [eauto|].
    apply updateOne_In in Hx. destruct Hx as [Hx | ->]; [eauto|].
    cbn in Hk. injection Hk as <-. exists (clock w / 1000). reflexivity.
  - destruct (resetPassword_paths L req w) as [[E _]|(u & _ & _ & E & _)];
      rewrite E in Hx; [eauto|].
    apply updateOne_In in Hx. destruct Hx as [Hx | ->]; [eauto|].
    discriminate Hk.
Qed.

Lemma reachable_tokens_signed (L : Libs) (w : World) :
  reachable L w -> tokens_signed L (users w).
Proof.
  induction 1 as [t k e|w c req t _ IH].
  - intros u k' [].
  - apply tokens_signed_step. exact IH.
Qed.

Lemma reachable_emails_nodup (L : Libs) (w : World) :
  reachable L w -> NoDup (map email (users w)).
Proof.
  induction 1 as [t k e|w c req t Hr IH].
  - constructor.
  - apply emails_unique_step; [|exact IH].
    apply (reachable_world_ok L w Hr).
Qed.

(** In a reachable world a reset token is held by at most one user. *)
Lemma token_owner_unique (L : Libs) (w : World) (u v : User) (k : string) :
  jwt_names_email L -> reachable L w ->
  In u (users w) -> In v (users w) ->
  resetToken u = Some k -> resetToken v = Some k ->
  u = v.
Proof.
  intros Hinj Hr Hu Hv Hku Hkv.
  destruct (reachable_tokens_signed L w Hr u k Hu Hku) as [i1 E1].
  destruct (reachable_tokens_signed L w Hr v k Hv Hkv) as [i2 E2].
  apply (NoDup_map_inj email (users w)); auto.
  - apply (reachable_emails_nodup L w Hr).
  - apply (Hinj _ _ i1 i2). congruence.
Qed.

(** C2 (amended): in every world reached through the auth handlers (a
    signed token naming its email), for every stored user whose resetToken
    is the token parameter and whose resetTokenExpiration is strictly
    greater than the current time, and every non-empty new password,
    resetPassword replaces the stored hash with the hash of the new
    password, clears both reset fields, changes no other document and
    responds 200.  Afterwards the new plaintext verifies against the stored
    hash; any other plaintext, the old one included, verifies exactly when
    bcrypt.compare accepts it against the hash of the new password. *)
Theorem resetPassword_valid_token (L : Libs) (w0 : World) (t e : Z)
  (req : Request) (u : User) :
  hash_nonempty L -> compare_accepts L -> jwt_names_email L ->
  reachable L w0 ->
  let w := at_time t w0 in
  truthy (get "password" (body req)) = true ->
  In u (users w) ->
  resetToken u = Some (params_token req) ->
  resetTokenExpiration u = Some e ->
  t < e ->
  let new := str (get "password" (body req)) in
  exists l1 l2 u',
    users w = l1 ++ u :: l2 /\
    users (fst (run (resetPassword L req) w)) = l1 ++ u' :: l2 /\
    _id u' = _id u /\
    password u' = bcrypt_hash L (entropy w) new 10 /\
    resetToken u' = None /\
    resetTokenExpiration u' = None /\
    response (snd (run (resetPassword L req) w)) =
      Some (200, "Password reset successful.", NoData) /\
    bcrypt_compare L new (password u') = true /\
    (forall other,
       bcrypt_compare L other (password u') =
       bcrypt_compare L other (bcrypt_hash L (entropy w) new 10)).
Proof.
  intros Hne Hacc Hinj Hr w Hp Hin Htok Hexp Hlt new.
  assert (Hok : store_ok (users w)) by apply (reachable_world_ok L w0 Hr).
  assert (Hf : find (reset_filter (params_token req) (clock w)) (users w)
               = Some u).
  { apply find_unique_match; [exact Hin| |].
    - apply reset_filter_true. split; [exact Htok|]. exists e. auto.
    - intros v Hv Hfv. apply reset_filter_true in Hfv.
      destruct Hfv as [Htv _].
      apply (token_owner_unique L w0 v u (params_token req)); auto. }
  destruct (resetPassword_found L req w u Hne Hok Hp Hf)
    as (l1 & l2 & Hus & E).
  exists l1, l2, (reset_doc L req w u). rewrite E. cbn.
  repeat split; auto.
Qed.

(** C3 (amended): in every world reached through the auth handlers (a
    signed token naming its email), at most one reset token is active for a
    user at a time and a token is active for at most one user.  A second
    forgotPassword request for the same email overwrites the stored
    resetToken and resetTokenExpiration; provided the second request signed
    a different token, a later resetPassword carrying the first token finds
    no matching record: it is answered by the 404 error and changes
    nothing, at any time [t3], also before the first expiration. *)
Theorem second_forgotPassword_replaces_token (L : Libs) (w0 : World)
  (req1 req2 req3 : Request) (t1 t2 t3 : Z) (u : User) :
  let k1 := jwt_sign L (EmailClaim (email u)) (JWT_SECRET L) "30m"
                     (t1 / 1000) in
  let k2 := jwt_sign L (EmailClaim (email u)) (JWT_SECRET L) "30m"
                     (t2 / 1000) in
  let w1 := fst (run (forgotPassword L req1) (at_time t1 w0)) in
  let w2 := fst (run (forgotPassword L req2) (at_time t2 w1)) in
  jwt_names_email L ->
  reachable L w0 ->
  truthy (get "email" (body req1)) = true ->
  get "email" (body req2) = get "email" (body req1) ->
  In u (users w0) ->
  email u = str (get "email" (body req1)) ->
  k1 <> k2 ->
  params_token req3 = k1 ->
  truthy (get "password" (body req3)) = true ->
  (forall v k k' t,
     In v (users w2) ->
     reset_filter k t v = true -> reset_filter k' t v = true -> k = k')
  /\ (forall v v' k t,
        In v (users w2) -> In v' (users w2) ->
        reset_filter k t v = true -> reset_filter k t v' = true -> v = v')
  /\ exists l1 l2 u1 u2,
       users w0 = l1 ++ u :: l2 /\
       users w1 = l1 ++ u1 :: l2 /\
       resetToken u1 = Some k1 /\
       resetTokenExpiration u1 = Some (t1 + 18000000) /\
       users w2 = l1 ++ u2 :: l2 /\
       _id u2 = _id u /\
       resetToken u2 = Some k2 /\
       resetTokenExpiration u2 = Some (t2 + 18000000) /\
       run (resetPassword L req3) (at_time t3 w2) =
         (at_time t3 w2,
          [next (Some (mkCustomError
                         "Password reset token expired or invalid." 404))]).
Proof.
  intros k1 k2 w1 w2 Hinj Hr0 He1 He2 Hin Hu Hk Htok Hp.
  assert (Hr1 : reachable L w1)
    by exact (reachable_request L w0 ForgotPassword req1 t1 Hr0).
  assert (Hr2 : reachable L w2)
    by exact (reachable_request L w1 ForgotPassword req2 t2 Hr1).
  assert (Hok : store_ok (users w0)) by apply (reachable_world_ok L w0 Hr0).
  split; [|split].
  { intros v k k' t _ Hk1 Hk2.
    apply reset_filter_true in Hk1, Hk2.
    destruct Hk1 as [Hk1 _], Hk2 as [Hk2 _]. congruence. }
  { intros v v' k t Hv Hv' Hk1 Hk2.
    apply reset_filter_true in Hk1, Hk2.
    destruct Hk1 as [Hk1 _], Hk2 as [Hk2 _].
    exact (token_owner_unique L w2 v v' k Hinj Hr2 Hv Hv' Hk1 Hk2). }
  assert (Hf : find (fun x => String.eqb (email x)
                                 (str (get "email" (body req1))))
                    (users w0) = Some u).
  { apply find_unique_match; [exact Hin| |].
    - apply String.eqb_eq. exact Hu.
    - intros v Hv Hev. apply String.eqb_eq in Hev.
      apply (NoDup_map_inj email (users w0)); auto; [|congruence].
      apply (reachable_emails_nodup L w0 Hr0). }
  destruct (find_split _ _ _ Hf) as (l1 & l2 & Hus & _ & Hl1).
  assert (Hl1' : forall x, In x l1 ->
                           email x <> str (get "email" (body req1))).
  { intros x Hx. apply String.eqb_neq. auto. }
  (* first request *)
  pose proof (forgotPassword_at L req1 (at_time t1 w0) u l1 l2
                Hok He1 Hus Hl1' Hu) as E1.
  set (u1 := forgot_stored L (at_time t1 w0) u) in *.
  destruct (forgot_stored_fields L (at_time t1 w0) u)
    as (Hid1 & Hn1 & Hem1 & Hpw1 & Hro1 & _ & _ & Ht1 & Hx1).
  fold u1 in Hid1, Hn1, Hem1, Hpw1, Hro1, Ht1, Hx1. cbn in Ht1, Hx1.
  assert (Hw1 : users w1 = l1 ++ u1 :: l2).
  { unfold w1. rewrite E1. reflexivity. }
  assert (Hok1 : store_ok (users (at_time t2 w1)))
    by apply (reachable_world_ok L w1 Hr1).
  (* second request *)
  assert (He2' : truthy (get "email" (body req2)) = true)
    by (rewrite He2; exact He1).
  assert (Hl2 : forall x, In x l1 ->
                          email x <> str (get "email" (body req2))).
  { rewrite He2. exact Hl1'. }
  assert (Hu1 : email u1 = str (get "email" (body req2))).
  { rewrite He2, Hem1. exact Hu. }
  pose proof (forgotPassword_at L req2 (at_time t2 w1) u1 l1 l2
                Hok1 He2' Hw1 Hl2 Hu1) as E2.
  set (u2 := forgot_stored L (at_time t2 w1) u1) in *.
  destruct (forgot_stored_fields L (at_time t2 w1) u1)
    as (Hid2 & _ & Hem2 & _ & _ & _ & _ & Ht2 & Hx2).
  fold u2 in Hid2, Hem2, Ht2, Hx2. cbn in Ht2, Hx2. rewrite Hem1 in Ht2.
  assert (Hw2 : users w2 = l1 ++ u2 :: l2).
  { unfold w2. rewrite E2. reflexivity. }
  exists l1, l2, u1, u2.
  repeat split; try assumption; try congruence.
  (* the first token selects nobody *)
  apply resetPassword_not_found; [exact Hp|].
  apply find_all_false. cbn. intros x Hx.
  destruct (reset_filter (params_token req3) t3 x) eqn:Ef; [|reflexivity].
  apply reset_filter_true in Ef. destruct Ef as [Hrt _].
  rewrite Htok in Hrt. exfalso.
  assert (Hu2 : In u2 (users w2)).
  { rewrite Hw2. apply in_or_app. right. now left. }
  destruct (reachable_tokens_signed L w2 Hr2 x k1 Hx Hrt) as [i Ei].
  assert (Hxe : email x = email u2).
  { rewrite Hem2, Hem1. symmetry. apply (Hinj _ _ (t1 / 1000) i). exact Ei. }
  assert (Hxu : x = u2).
  { apply (NoDup_map_inj email (users w2)); auto.
    apply (reachable_emails_nodup L w2 Hr2). }
  subst x. rewrite Ht2 in Hrt. apply Hk. injection Hrt as Hrt.
  symmetry. exact Hrt.
Qed.

(** X17: after a successful resetPassword for the user that login finds
    under its email, logins are decided by the new hash alone: a login with
    the new password is answered 200, and a login with a password that
    bcrypt.compare rejects against the hash of the new password is answered
    by the 400 error "Password incorrect. Please try again". *)
Theorem reset_then_login (L : Libs) (req good bad : Request) (w : World)
  (t2 : Z) (u : User) :
  hash_nonempty L -> compare_accepts L ->
  store_ok (users w) ->
  truthy (get "password" (body req)) = true ->
  find (reset_filter (params_token req) (clock w)) (users w) = Some u ->
  find (fun x => String.eqb (email x) (email u)) (users w) = Some u ->
  get "email" (body good) = Some (email u) ->
  get "password" (body good) = get "password" (body req) ->
  get "email" (body bad) = Some (email u) ->
  truthy (get "password" (body bad)) = true ->
  bcrypt_compare L (str (get "password" (body bad)))
    (bcrypt_hash L (entropy w) (str (get "password" (body req))) 10)
    = false ->
  let token := jwt_sign L (IdRole (_id u) (role u)) (JWT_SECRET L) "1h"
                        (t2 / 1000) in
  token <> "" ->
  let w' := at_time t2 (fst (run (resetPassword L req) w)) in
  response (snd (run (login L good) w'))
    = Some (200, "Login successful.", DataToken token)
  /\ response (snd (run (login L bad) w'))
     = Some (400, "Password incorrect. Please try again", NoData).
Proof.
  intros Hne Hacc Hok Hp Hf Hfe Hge Hgp Hbe Hbp Hbad token Ht w'.
  destruct (resetPassword_found L req w u Hne Hok Hp Hf)
    as (l1 & l2 & Hus & E).
  assert (Hin : In u (users w)).
  { rewrite Hus. apply in_or_app. right. now left. }
  pose proof (store_ok_valid _ _ Hok Hin) as Hval.
  assert (Hemail : truthy (Some (email u)) = true).
  { unfold validate in Hval. cbn.
    destruct (String.eqb (name u) ""); [discriminate|].
    destruct (String.eqb (email u) ""); [discriminate|reflexivity]. }
  assert (Hl1 : forall x, In x l1 -> String.eqb (email x) (email u) = false).
  { apply (find_first_unique _ l1 l2 u).
    - rewrite <- Hus. apply Hok.
    - rewrite <- Hus. exact Hfe. }
  assert (Hf' : find (fun x => String.eqb (email x) (email u)) (users w')
                = Some (reset_doc L req w u)).
  { subst w'. rewrite E. cbn.
    apply find_app_first; [exact Hl1|]. cbn. apply String.eqb_refl. }
  split.
  - rewrite (login_found L good w' (reset_doc L req w u)).
    + cbn. rewrite Hgp. unfold compare_accepts in Hacc. rewrite Hacc.
      reflexivity.
    + rewrite Hge. exact Hemail.
    + rewrite Hgp. exact Hp.
    + rewrite Hge. exact Hf'.
    + exact Ht.
  - rewrite (login_found L bad w' (reset_doc L req w u)).
    + cbn. rewrite Hbad. reflexivity.
    + rewrite Hbe. exact Hemail.
    + exact Hbp.
    + rewrite Hbe. exact Hf'.
    + exact Ht.
Qed.

(** ** The sample signer names its email *)

Lemma list_ascii_app (a b : string) :
  list_ascii_of_string (a ++ b)%string =
  list_ascii_of_string a ++ list_ascii_of_string b.
Proof.
  induction a; cbn; congruence.
Qed.

Lemma split_at_first_dot (X Y A B : list ascii) :
  Forall not_dot X -> Forall not_dot Y ->
  X ++ "."%char :: A = Y ++ "."%char :: B -> X = Y /\ A = B.
Proof.
  revert Y. induction X as [|x X IH]; intros [|y Y] HX HY E; cbn in E.
  - injection E as E. auto.
  - injection E as E1 E2. inversion HY; subst. now contradiction H1.
  - injection E as E1 E2. inversion HX; subst. now contradiction H1.
  - injection E as -> E. inversion HX; inversion HY; subst.
    destruct (IH Y H2 H6 E) as [-> ->]. auto.
Qed.

Lemma uint_no_dot (u : Decimal.uint) :
  Forall not_dot (list_ascii_of_string (NilEmpty.string_of_uint u)).
Proof.
  induction u; cbn; constructor; try discriminate; assumption.
Qed.

Lemma int_no_dot (i : Decimal.int) :
  Forall not_dot (list_ascii_of_string (NilZero.string_of_int i)).
Proof.
  destruct i as [u|u]; cbn; [|constructor; [discriminate|]];
    (destruct u;
     [repeat constructor; discriminate | apply (uint_no_dot (_ u)) ..]).
Qed.

Lemma sample_jwt_names_email : jwt_names_email Sample.libs.
Proof.
  intros e1 e2 i1 i2 H. cbn in H. injection H as H.
  apply (f_equal list_ascii_of_string) in H.
  rewrite !list_ascii_app in H. cbn in H.
  rewrite !list_ascii_app in H. cbn in H.
  apply (f_equal (@rev ascii)) in H.
  repeat (rewrite ?rev_app_distr in H; cbn in H).
  injection H as H. rewrite <- !app_assoc in H. cbn in H.
  apply split_at_first_dot in H;
    [|apply Forall_rev; apply int_no_dot ..].
  destruct H as [_ H]. injection H as H.
  apply (f_equal (@rev ascii)) in H. rewrite !rev_involutive in H.
  apply (f_equal string_of_list_ascii) in H.
  now rewrite !string_of_list_ascii_of_string in H.
Qed.

Example sample_w1_reachable : reachable Sample.libs Sample.w1.
Proof.
  change Sample.w1
    with (fst (run (handle Sample.libs Register Sample.alice_register)
                   (at_time 1000 Sample.empty))).
  apply reachable_request. apply reachable_empty.
Qed.

Lemma resetPassword_valid_token_witness :
  exists l1 l2 u',
    users (at_time 5000 Sample.w2) = l1 ++ Sample.alice2 :: l2 /\
    users (fst (run (resetPassword Sample.libs
                       (Sample.post_token Sample.token1 [("password", "P2")]))
                    (at_time 5000 Sample.w2))) = l1 ++ u' :: l2 /\
    _id u' = 1 /\
    password u' = "$b$P2" /\
    resetToken u' = None /\
    resetTokenExpiration u' = None /\
    response (snd (run (resetPassword Sample.libs
                          (Sample.post_token Sample.token1
                                             [("password", "P2")]))
                       (at_time 5000 Sample.w2))) =
      Some (200, "Password reset successful.", NoData) /\
    Sample.compare "P2" (password u') = true /\
    (forall other,
       Sample.compare other (password u') = Sample.compare other "$b$P2").
Proof.
  apply (resetPassword_valid_token
           Sample.libs Sample.w2 5000 18002000
           (Sample.post_token Sample.token1 [("password", "P2")])
           Sample.alice2).
  - exact sample_hash_nonempty.
  - exact sample_compare_accepts.
  - exact sample_jwt_names_email.
  - exact sample_w2_reachable.
  - reflexivity.
  - now left.
  - reflexivity.
  - reflexivity.
  - reflexivity.
Defined.

Lemma second_forgotPassword_witness :
  (forall v k k' t,
     In v (users (fst (run (forgotPassword Sample.libs Sample.alice_forgot)
                           (at_time 4000 Sample.w2)))) ->
     reset_filter k t v = true -> reset_filter k' t v = true -> k = k')
  /\ (forall v v' k t,
        In v (users (fst (run (forgotPassword Sample.libs Sample.alice_forgot)
                              (at_time 4000 Sample.w2)))) ->
        In v' (users (fst (run (forgotPassword Sample.libs
                                  Sample.alice_forgot)
                               (at_time 4000 Sample.w2)))) ->
        reset_filter k t v = true -> reset_filter k t v' = true -> v = v')
  /\ exists l1 l2 u1 u2,
       users Sample.w1 = l1 ++ Sample.alice1 :: l2 /\
       users (fst (run (forgotPassword Sample.libs Sample.alice_forgot)
                       (at_time 2000 Sample.w1))) = l1 ++ u1 :: l2 /\
       resetToken u1 = Some Sample.token1 /\
       resetTokenExpiration u1 = Some (2000 + 18000000) /\
       users (fst (run (forgotPassword Sample.libs Sample.alice_forgot)
                       (at_time 4000 Sample.w2))) = l1 ++ u2 :: l2 /\
       _id u2 = 1 /\
       resetToken u2 = Some "jwt.email=a@x.com.30m.4.s3cret" /\
       resetTokenExpiration u2 = Some (4000 + 18000000) /\
       run (resetPassword Sample.libs
              (Sample.post_token Sample.token1 [("password", "P2")]))
           (at_time 5000
              (fst (run (forgotPassword Sample.libs Sample.alice_forgot)
                        (at_time 4000 Sample.w2)))) =
         (at_time 5000
            (fst (run (forgotPassword Sample.libs Sample.alice_forgot)
                      (at_time 4000 Sample.w2))),
          [next (Some (mkCustomError
                         "Password reset token expired or invalid." 404))]).
Proof.
  apply (second_forgotPassword_replaces_token
           Sample.libs Sample.w1 Sample.alice_forgot Sample.alice_forgot
           (Sample.post_token Sample.token1 [("password", "P2")])
           2000 4000 5000 Sample.alice1).
  - exact sample_jwt_names_email.
  - exact sample_w1_reachable.
  - reflexivity.
  - reflexivity.
  - now left.
  - reflexivity.
  - discriminate.
  - reflexivity.
  - reflexivity.
Defined.

Lemma reset_then_login_witness :
  response
    (snd (run (login Sample.libs
                 (Sample.post [("email", "a@x.com"); ("password", "P2")]))
              (at_time 6000
                 (fst (run (resetPassword Sample.libs
                              (Sample.post_token Sample.token1
                                                 [("password", "P2")]))
                           (at_time 5000 Sample.w2))))))
    = Some (200, "Login successful.",
            DataToken "jwt.id=1,role=user.1h.6.s3cret")
  /\ response
       (snd (run (login Sample.libs
                    (Sample.post [("email", "a@x.com"); ("password", "P1")]))
                 (at_time 6000
                    (fst (run (resetPassword Sample.libs
                                 (Sample.post_token Sample.token1
                                                    [("password", "P2")]))
                              (at_time 5000 Sample.w2))))))
     = Some (400, "Password incorrect. Please try again", NoData).
Proof.
  apply (reset_then_login Sample.libs
           (Sample.post_token Sample.token1 [("password", "P2")])
           (Sample.post [("email", "a@x.com"); ("password", "P2")])
           (Sample.post [("email", "a@x.com"); ("password", "P1")])
           (at_time 5000 Sample.w2) 6000 Sample.alice2).
  - exact sample_hash_nonempty.
  - exact sample_compare_accepts.
  - exact sample_store_ok_w2.
  - reflexivity.
  - reflexivity.
  - reflexivity.
  - reflexivity.
  - reflexivity.
  - reflexivity.
  - reflexivity.
  - reflexivity.
  - discriminate.
Defined.

(** ** A hash that reads 72 bytes *)

Lemma sample72_hash_nonempty : hash_nonempty Sample.libs72.
Proof.
  intros seed data rounds. discriminate.
Qed.

Lemma sample72_compare_accepts : compare_accepts Sample.libs72.
Proof.
  intros seed data rounds. cbn. apply String.eqb_refl.
Qed.

(** With such a hash a password that differs from the new one only after
    its 72nd byte keeps logging in after the reset. *)
Example sample72_old_password_still_logs_in :
  let old := (Sample.a72 ++ "X")%string in
  let new := (Sample.a72 ++ "Y")%string in
  let w1 := fst (run (register Sample.libs72
                        (Sample.post [("name", "Carol"); ("email", "c@x.com");
                                      ("password", old)]))
                     (at_time 1000 Sample.empty)) in
  let w2 := fst (run (forgotPassword Sample.libs72
                        (Sample.post [("email", "c@x.com")]))
                     (at_time 2000 w1)) in
  let reset := Sample.post_token "jwt.email=c@x.com.30m.2.s3cret"
                                 [("password", new)] in
  let w3 := fst (run (resetPassword Sample.libs72 reset) (at_time 5000 w2)) in
  old <> new
  /\ response (snd (run (resetPassword Sample.libs72 reset)
                        (at_time 5000 w2))) =
       Some (200, "Password reset successful.", NoData)
  /\ response (snd (run (login Sample.libs72
                           (Sample.post [("email", "c@x.com");
                                         ("password", old)]))
                        (at_time 6000 w3))) =
       Some (200, "Login successful.",
             DataToken "jwt.id=1,role=user.1h.6.s3cret").
Proof.
  cbv zeta. split; [discriminate|]. split; reflexivity.
Qed.
